(** * csv-to-supabase: the song importer of [main.py]

    A shallow embedding of [SongDataImporter]: the value normalizer
    ([clean_number], [clean_value]), the record builder
    ([prepare_song_data]), the failure recorder ([save_failed_records])
    and the batch loader ([import_songs]), followed by the properties
    established about them.

    Conventions of the embedding.
    - A Python [str] is a [string]; a character is a code point below 256.
    - A Python [int] is a [Z].  A [float] is an IEEE binary64 value kept
      as a sign and a dyadic [m * 2^e], or an infinity, or the NaN;
      [float(s)] rounds the decimal to nearest, ties to even.
    - A [dict] and a row ([pandas.Series]) are association lists in
      insertion order.  The labels of a row are distinct, and the index
      of the data frame is the default one: row [i] has label [i].
    - An exception is a value of [exn]; a computation that may raise
      returns a [res].  Only [Exception]s are modelled, not an interrupt
      of the process.
    - Logging, the sink call and the files written are events of a
      trace, in program order.  The sink is a parameter: a state machine
      that accepts a record or raises.  The clock is a parameter too.
      Writing to the file system does not fail by itself; [json.dump]
      raises on a value it cannot encode. *)

From Stdlib Require Import ZArith List String Ascii Bool Lia DecimalString.
Import ListNotations.

Local Open Scope string_scope.
Local Open Scope Z_scope.

(** ** Strings *)

Module Str.

Definition code (c : ascii) : Z := Z.of_N (N_of_ascii c).

(** [str.isspace] on code points below 256. *)
Definition is_space (c : ascii) : bool :=
  let n := code c in
  ((9 <=? n) && (n <=? 13)) || ((28 <=? n) && (n <=? 32))
  || (n =? 133) || (n =? 160).

Definition is_digit (c : ascii) : bool :=
  let n := code c in (48 <=? n) && (n <=? 57).

Definition digit_val (c : ascii) : Z := code c - 48.

Definition is_empty (s : string) : bool :=
  match s with EmptyString => true | String _ _ => false end.

Fixpoint lstrip_by (p : ascii -> bool) (s : string) : string :=
  match s with
  | EmptyString => EmptyString
  | String c r => if p c then lstrip_by p r else s
  end.

Fixpoint rstrip_by (p : ascii -> bool) (s : string) : string :=
  match s with
  | EmptyString => EmptyString
  | String c r =>
      let r' := rstrip_by p r in
      if p c && is_empty r' then EmptyString else String c r'
  end.

(** [s.strip()] *)
Definition strip (s : string) : string :=
  rstrip_by is_space (lstrip_by is_space s).

(** [s.replace(c, "")] for a one-character pattern [c]. *)
Fixpoint remove_char (x : ascii) (s : string) : string :=
  match s with
  | EmptyString => EmptyString
  | String c r =>
      if Ascii.eqb c x then remove_char x r else String c (remove_char x r)
  end.

Definition lower_char (c : ascii) : ascii :=
  let n := code c in
  if (65 <=? n) && (n <=? 90) then ascii_of_N (Z.to_N (n + 32)) else c.

Fixpoint lower (s : string) : string :=
  match s with
  | EmptyString => EmptyString
  | String c r => String (lower_char c) (lower r)
  end.

(** [str(n)] for an integer. *)
Definition of_Z (z : Z) : string := NilZero.string_of_int (Z.to_int z).

(** Decimal text of [n], left-padded with zeros to [w] characters. *)
Fixpoint zeros (k : nat) : string :=
  match k with O => EmptyString | S k' => String "0" (zeros k') end.

Definition pad (w : nat) (n : nat) : string :=
  let s := of_Z (Z.of_nat n) in
  zeros (w - String.length s) ++ s.

End Str.

(** ** Floats

    A binary64 value.  [FFin neg m e] stands for [(-1)^neg * m * 2^e] with
    [0 <= m]. *)

Inductive pyfloat : Type :=
| FNan
| FInf (neg : bool)
| FFin (neg : bool) (m e : Z).

Module Float.

Definition emin : Z := -1074.

(** Exponent of the last place of the positive rational [p / q]:
    [floor (log2 (p / q)) - 52], never below [emin]. *)
Definition ulp_exp (p q : Z) : Z :=
  let l := Z.log2 p - Z.log2 q in
  let ge := if 0 <=? l then q * 2 ^ l <=? p else q <=? p * 2 ^ (- l) in
  Z.max ((if ge then l else l - 1) - 52) emin.

(** Round-to-nearest, ties-to-even, of the rational [p / q], [0 <= p],
    [0 < q]. *)
Definition round_rat (neg : bool) (p q : Z) : pyfloat :=
  if p =? 0 then FFin neg 0 0
  else
    let e := ulp_exp p q in
    let num := if 0 <=? e then p else p * 2 ^ (- e) in
    let den := if 0 <=? e then q * 2 ^ e else q in
    let m := num / den in
    let r := num mod den in
    let m' := if (den <? 2 * r) || ((den =? 2 * r) && Z.odd m)
              then m + 1 else m in
    if (971 <? e) || ((e =? 971) && (m' =? 2 ^ 53)) then FInf neg
    else FFin neg m' e.

(** The value of the decimal [d * 10^x]. *)
Definition of_decimal (neg : bool) (d x : Z) : pyfloat :=
  if 0 <=? x then round_rat neg (d * 10 ^ x) 1
  else round_rat neg d (10 ^ (- x)).

(** *** [float(s)] for a string

    The grammar of the language reference: surrounding white space,
    an optional sign, then [inf], [infinity] or [nan] in any case, or
    a decimal number with an optional exponent; a single underscore may
    separate two digits. *)

Definition is_space (c : ascii) : bool :=
  let n := Str.code c in
  ((9 <=? n) && (n <=? 13)) || (n =? 32) || (n =? 133) || (n =? 160).

(** The digits after the first one of a [digitpart]: the accumulated
    value, the number of digits read, and the rest of the input. *)
Fixpoint digits_tail (s : string) (acc cnt : Z) : Z * Z * string :=
  match s with
  | String c r =>
      if Str.is_digit c
      then digits_tail r (10 * acc + Str.digit_val c) (cnt + 1)
      else if Ascii.eqb c "_"
      then match r with
           | String d r' =>
               if Str.is_digit d
               then digits_tail r' (10 * acc + Str.digit_val d) (cnt + 1)
               else (acc, cnt, s)
           | EmptyString => (acc, cnt, s)
           end
      else (acc, cnt, s)
  | EmptyString => (acc, cnt, s)
  end.

Definition digitpart (s : string) (acc : Z) : option (Z * Z * string) :=
  match s with
  | String c r =>
      if Str.is_digit c
      then Some (digits_tail r (10 * acc + Str.digit_val c) 1)
      else None
  | EmptyString => None
  end.

Definition sign (s : string) : bool * string :=
  match s with
  | String "-" r => (true, r)
  | String "+" r => (false, r)
  | _ => (false, s)
  end.

(** [number]: the digits as one integer and the number of them after
    the point. *)
Definition number (s : string) : option (Z * Z * string) :=
  match digitpart s 0 with
  | Some (d, _, String "." r) =>
      match digitpart r d with
      | Some (d', nf, r') => Some (d', nf, r')
      | None => Some (d, 0, r)
      end
  | Some (d, _, r) => Some (d, 0, r)
  | None =>
      match s with
      | String "." r => digitpart r 0
      | _ => None
      end
  end.

Definition exponent (s : string) : option Z :=
  match s with
  | EmptyString => Some 0
  | String c r =>
      if Ascii.eqb c "e" || Ascii.eqb c "E"
      then let (neg, r1) := sign r in
           match digitpart r1 0 with
           | Some (x, _, EmptyString) => Some (if neg then - x else x)
           | _ => None
           end
      else None
  end.

(** [float(s)]; [None] is the [ValueError]. *)
Definition of_string (s : string) : option pyfloat :=
  let s1 := Str.rstrip_by is_space (Str.lstrip_by is_space s) in
  let (neg, s2) := sign s1 in
  let w := Str.lower s2 in
  if String.eqb w "inf" || String.eqb w "infinity" then Some (FInf neg)
  else if String.eqb w "nan" then Some FNan
  else
    match number s2 with
    | Some (d, nf, r) =>
        match exponent r with
        | Some x => Some (of_decimal neg d (x - nf))
        | None => None
        end
    | None => None
    end.

Definition is_nan (f : pyfloat) : bool :=
  match f with FNan => true | _ => false end.

End Float.

(** ** Cell values, mappings and exceptions *)

(** What a cell of the data frame may hold: [None], [pandas.NaT],
    [pandas.NA], a [bool], an [int], a [float], a [str] or a
    [datetime.date]. *)
Inductive value : Type :=
| VNone
| VNaT
| VNA
| VBool (b : bool)
| VInt (z : Z)
| VFloat (f : pyfloat)
| VStr (s : string)
| VDate (y m d : nat).

(** A [dict] with string keys, and a row ([pandas.Series]) alike. *)
Definition dict : Type := list (string * value).

Fixpoint dict_get (k : string) (d : dict) : option value :=
  match d with
  | [] => None
  | (k', v) :: d' => if String.eqb k k' then Some v else dict_get k d'
  end.

(** [d[k] = v]: the value is replaced in place, a new key goes last. *)
Fixpoint dict_set (k : string) (v : value) (d : dict) : dict :=
  match d with
  | [] => [(k, v)]
  | (k', v') :: d' =>
      if String.eqb k k' then (k, v) :: d' else (k', v') :: dict_set k v d'
  end.

Inductive exn : Type :=
| KeyError (key : string)
| ValueError (msg : string)
| TypeError (msg : string)
| OverflowError (msg : string)
| UnboundLocalError (msg : string)
| SinkError (text : string).

(** [str(e)] *)
Definition str_exn (e : exn) : string :=
  match e with
  | KeyError k => "'" ++ k ++ "'"
  | ValueError m | TypeError m | OverflowError m | UnboundLocalError m => m
  | SinkError t => t
  end.

Inductive res (A : Type) : Type :=
| Ok (a : A)
| Raise (e : exn).
Arguments Ok {A} a.
Arguments Raise {A} e.

Definition res_bind {A B} (r : res A) (k : A -> res B) : res B :=
  match r with Ok a => k a | Raise e => Raise e end.

(** ** The trace *)

Inductive event : Type :=
| LogWarning (v : value)
| LogTrying (i total : nat) (title : value)
| LogImported (title : value)
| LogRowError (i : nat) (msg : string)
| LogBadData (song_data : dict)
| LogImportError (msg : string)
| LogNothingToSave
| LogSaved (csv_path json_path : string) (n : nat)
| LogSummary (total ok failed : nat)
| SinkInsert (song_data : dict)
| Mkdir (path : string)
| WriteCsv (path : string) (records : list dict)
| OpenWrite (path : string)
| JsonDumped (path : string) (records : list dict).

(** A computation that logs and may raise. *)
Definition logged (A : Type) : Type := list event * res A.

Definition lret {A} (a : A) : logged A := ([], Ok a).

Definition lbind {A B} (c : logged A) (k : A -> logged B) : logged B :=
  match c with
  | (l, Ok a) => let (l', r) := k a in ((l ++ l')%list, r)
  | (l, Raise e) => (l, Raise e)
  end.

Notation "x <- c ;; k" := (lbind c (fun x => k))
  (at level 61, c at next level, right associativity).

(** ** Built-ins *)

(** [pandas.isna] on a scalar. *)
Definition isna (v : value) : bool :=
  match v with
  | VNone | VNaT | VNA => true
  | VFloat f => Float.is_nan f
  | _ => false
  end.

(** [v == ""] *)
Definition eq_empty (v : value) : bool :=
  match v with VStr s => Str.is_empty s | _ => false end.

(** [v is None] *)
Definition is_none (v : value) : bool :=
  match v with VNone => true | _ => false end.

(** [float(s)] *)
Definition py_float (s : string) : res pyfloat :=
  match Float.of_string s with
  | Some f => Ok f
  | None => Raise (ValueError "could not convert string to float")
  end.

(** [int(f)] for a float: truncation toward zero. *)
Definition py_int (f : pyfloat) : res Z :=
  match f with
  | FNan => Raise (ValueError "cannot convert float NaN to integer")
  | FInf _ => Raise (OverflowError "cannot convert float infinity to integer")
  | FFin neg m e => Ok (if neg then - Z.shiftl m e else Z.shiftl m e)
  end.

(** The text of the [UnboundLocalError] on [song_data]. *)
Definition song_data_unbound : string :=
  "cannot access local variable 'song_data' "
  ++ "where it is not associated with a value".

(** [str(d)] for a date: ISO 8601. *)
Definition isoformat (y m d : nat) : string :=
  Str.pad 4 y ++ "-" ++ Str.pad 2 m ++ "-" ++ Str.pad 2 d.

Section Importer.

(** [repr] of a float (the shortest text that reads back) is left
    open: no property below depends on it. *)
Variable float_repr : pyfloat -> string.

(** [str(v)] *)
Definition py_str (v : value) : string :=
  match v with
  | VNone => "None"
  | VNaT => "NaT"
  | VNA => "<NA>"
  | VBool true => "True"
  | VBool false => "False"
  | VInt z => Str.of_Z z
  | VFloat f => float_repr f
  | VStr s => s
  | VDate y m d => isoformat y m d
  end.

(** ** Value normalizer *)

(** The [try] block of [clean_number]. *)
Definition clean_number_try (v : value) : res value :=
  match v with
  | VStr s =>
      let cleaned := Str.remove_char " " (Str.remove_char "," s) in
      res_bind (py_float cleaned) (fun f =>
      res_bind (py_int f) (fun z => Ok (VInt z)))
  | VInt z => Ok (VInt z)
  | VBool b => Ok (VInt (Z.b2z b))
  | VFloat f => res_bind (py_int f) (fun z => Ok (VInt z))
  | _ => Ok VNone
  end.

Definition clean_number (v : value) : logged value :=
  if isna v || eq_empty v || is_none v then lret VNone
  else
    match clean_number_try v with
    | Raise (ValueError _) | Raise (TypeError _) =>
        ([LogWarning v], Ok VNone)
    | r => ([], r)
    end.

Definition clean_value (v : value) (field_name : string) : logged value :=
  if isna v || eq_empty v || is_none v then lret VNone
  else if String.eqb field_name "youtube_views" then clean_number v
  else
    match v with
    | VFloat f => lret (if Float.is_nan f then VNone else VFloat f)
    | VInt z => lret (VInt z)
    | VBool b => lret (VInt (Z.b2z b))
    | _ => lret (VStr (Str.strip (py_str v)))
    end.

(** ** Record builder *)

(** [row[k]] *)
Definition series_get (row : dict) (k : string) : res value :=
  match dict_get k row with
  | Some v => Ok v
  | None => Raise (KeyError k)
  end.

(** The keys of the [song_data] literal, in its order. *)
Definition fields : list string :=
  [ "title"; "artist"; "average_score"; "score_2024_10"; "score_2024_q3";
    "score_2024_q2"; "score_2024_q1"; "score_2023"; "album_date";
    "language"; "genre"; "playlists_name"; "energy"; "youtube_url";
    "youtube_views"; "spotify_url"; "album_name" ].

(** The value the literal gives to key [f]. *)
Definition field_value (row : dict) (f : string) : logged value :=
  match series_get row f with
  | Raise e => ([], Raise e)
  | Ok v =>
      if String.eqb f "album_date"
      then lret (if isna v then VNone else VStr (py_str v))
      else clean_value v f
  end.

(** The literal, entry after entry. *)
Fixpoint build_literal (row : dict) (fs : list string) : logged dict :=
  match fs with
  | [] => lret []
  | f :: fs' =>
      v <- field_value row f ;;
      d <- build_literal row fs' ;;
      lret ((f, v) :: d)
  end.

Definition not_none (kv : string * value) : bool := negb (is_none (snd kv)).

Definition prepare_song_data (row : dict) : logged dict :=
  song_data <- build_literal row fields ;;
  lret (filter not_none song_data).

(** ** The importer's state *)

(** [datetime.now()] *)
Record datetime : Type :=
  { year : nat; month : nat; day : nat;
    hour : nat; minute : nat; second : nat }.

(** [strftime("%Y%m%d_%H%M%S")] *)
Definition strftime_file (t : datetime) : string :=
  Str.pad 4 (year t) ++ Str.pad 2 (month t) ++ Str.pad 2 (day t) ++ "_"
  ++ Str.pad 2 (hour t) ++ Str.pad 2 (minute t) ++ Str.pad 2 (second t).

(** [strftime("%Y-%m-%d %H:%M:%S")] *)
Definition strftime_log (t : datetime) : string :=
  Str.pad 4 (year t) ++ "-" ++ Str.pad 2 (month t) ++ "-"
  ++ Str.pad 2 (day t) ++ " "
  ++ Str.pad 2 (hour t) ++ ":" ++ Str.pad 2 (minute t) ++ ":"
  ++ Str.pad 2 (second t).

(** The sink is an opaque remote store: a call of
    [table("songs").insert(d).execute()] moves it to a new state and
    either returns or raises an exception whose text is given. *)
Variable W : Type.
Variable sink_insert : W -> dict -> W * option string.

(** The wall clock: what the [n]-th reading of it returns. *)
Variable clock : nat -> datetime.

Record state : Type :=
  { sink : W;
    ticks : nat;
    failed_records : list dict;
    trace : list event }.

Definition emit (l : list event) (st : state) : state :=
  {| sink := sink st; ticks := ticks st;
     failed_records := failed_records st;
     trace := (trace st ++ l)%list |}.

Definition now (st : state) : datetime * state :=
  (clock (ticks st),
   {| sink := sink st; ticks := S (ticks st);
      failed_records := failed_records st; trace := trace st |}).

(** ** Failure recorder *)

(** What [json.dump] cannot encode. *)
Definition json_type_error (v : value) : option exn :=
  match v with
  | VNaT => Some (TypeError "Object of type NaTType is not JSON serializable")
  | VNA => Some (TypeError "Object of type NAType is not JSON serializable")
  | VDate _ _ _ =>
      Some (TypeError "Object of type date is not JSON serializable")
  | _ => None
  end.

Fixpoint json_dict_error (d : dict) : option exn :=
  match d with
  | [] => None
  | (_, v) :: d' =>
      match json_type_error v with
      | Some e => Some e
      | None => json_dict_error d'
      end
  end.

(** The exception [json.dump] raises on a list of records, if any. *)
Fixpoint json_dump_error (l : list dict) : option exn :=
  match l with
  | [] => None
  | d :: l' =>
      match json_dict_error d with
      | Some e => Some e
      | None => json_dump_error l'
      end
  end.

Definition log_dir : string := "failed_imports".

Definition csv_path (timestamp : string) : string :=
  log_dir ++ "/failed_records_" ++ timestamp ++ ".csv".

Definition json_path (timestamp : string) : string :=
  log_dir ++ "/failed_records_" ++ timestamp ++ ".json".

Definition save_failed_records (st : state) : state * res unit :=
  match failed_records st with
  | [] => (emit [LogNothingToSave] st, Ok tt)
  | _ :: _ =>
      let (t, st1) := now st in
      let timestamp := strftime_file t in
      let st2 := emit [Mkdir log_dir] st1 in
      let st3 := emit [WriteCsv (csv_path timestamp) (failed_records st)] st2 in
      let st4 := emit [OpenWrite (json_path timestamp)] st3 in
      match json_dump_error (failed_records st) with
      | Some e => (st4, Raise e)
      | None =>
          let st5 :=
            emit [JsonDumped (json_path timestamp) (failed_records st)] st4 in
          (emit [LogSaved (csv_path timestamp) (json_path timestamp)
                   (List.length (failed_records st))] st5,
           Ok tt)
      end
  end.

(** ** Batch loader *)

(** The local variables of [import_songs] the loop updates; [song_data]
    is unbound until its first assignment. *)
Record locals : Type :=
  { successful_imports : nat;
    failed_imports : nat;
    song_data : option dict }.

(** [row.to_dict()] *)
Definition to_dict (row : dict) : dict :=
  fold_left (fun d kv => dict_set (fst kv) (snd kv) d) row [].

(** The [except Exception as e] clause of the row. *)
Definition row_handler (index : nat) (row : dict) (e : exn)
    (st : state) (loc : locals) : state * locals * res unit :=
  let st1 := emit [LogRowError (S index) (str_exn e)] st in
  match song_data loc with
  | None =>
      (st1, loc,
       Raise (UnboundLocalError
                song_data_unbound))
  | Some sd =>
      let st2 := emit [LogBadData sd] st1 in
      let failed_record :=
        dict_set "error_message" (VStr (str_exn e)) (to_dict row) in
      let (t, st3) := now st2 in
      let failed_record :=
        dict_set "error_time" (VStr (strftime_log t)) failed_record in
      ({| sink := sink st3; ticks := ticks st3;
          failed_records := (failed_records st3 ++ [failed_record])%list;
          trace := trace st3 |},
       {| successful_imports := successful_imports loc;
          failed_imports := S (failed_imports loc);
          song_data := song_data loc |},
       Ok tt)
  end.

(** One turn of the [for] loop. *)
Definition import_row (total_rows index : nat) (row : dict)
    (st : state) (loc : locals) : state * locals * res unit :=
  let (logs, r) := prepare_song_data row in
  let st1 := emit logs st in
  match r with
  | Raise e => row_handler index row e st1 loc
  | Ok sd =>
      let loc1 := {| successful_imports := successful_imports loc;
                     failed_imports := failed_imports loc;
                     song_data := Some sd |} in
      match dict_get "title" sd with
      | None => row_handler index row (KeyError "title") st1 loc1
      | Some title =>
          let st2 := emit [LogTrying (S index) total_rows title] st1 in
          let (w, out) := sink_insert (sink st2) sd in
          let st3 := {| sink := w; ticks := ticks st2;
                        failed_records := failed_records st2;
                        trace := (trace st2 ++ [SinkInsert sd])%list |} in
          match out with
          | Some text => row_handler index row (SinkError text) st3 loc1
          | None =>
              (emit [LogImported title] st3,
               {| successful_imports := S (successful_imports loc1);
                  failed_imports := failed_imports loc1;
                  song_data := song_data loc1 |},
               Ok tt)
          end
      end
  end.

(** The [for] loop over [df.iterrows()], from row [index] on. *)
Fixpoint import_loop (total_rows index : nat) (rows : list dict)
    (st : state) (loc : locals) : state * locals * res unit :=
  match rows with
  | [] => (st, loc, Ok tt)
  | row :: rows' =>
      match import_row total_rows index row st loc with
      | (st', loc', Ok _) => import_loop total_rows (S index) rows' st' loc'
      | (st', loc', Raise e) => (st', loc', Raise e)
      end
  end.

Definition import_songs (df : list dict) (st : state)
    : state * locals * res unit :=
  let total_rows := List.length df in
  let loc0 := {| successful_imports := O; failed_imports := O;
                 song_data := None |} in
  match import_loop total_rows O df st loc0 with
  | (st1, loc, r) =>
      let st2 :=
        match r with
        | Raise e => emit [LogImportError (str_exn e)] st1
        | Ok _ => st1
        end in
      match save_failed_records st2 with
      | (st3, Raise e') => (st3, loc, Raise e')
      | (st3, Ok _) =>
          (emit [LogSummary total_rows (successful_imports loc)
                   (failed_imports loc)] st3,
           loc, r)
      end
  end.

End Importer.

Arguments sink {W} s.
Arguments ticks {W} s.
Arguments failed_records {W} s.
Arguments trace {W} s.
Arguments emit {W} l st.
Arguments now {W} clock st.
Arguments save_failed_records {W} clock st.
Arguments row_handler {W} clock index row e st loc.
Arguments import_row float_repr {W} sink_insert clock
  total_rows index row st loc.
Arguments import_loop float_repr {W} sink_insert clock
  total_rows index rows st loc.
Arguments import_songs float_repr {W} sink_insert clock df st.

(** ** Inputs named by the properties *)

(** A string made of white space only ([str.isspace], or empty). *)
Fixpoint all_space (s : string) : bool :=
  match s with
  | EmptyString => true
  | String c r => Str.is_space c && all_space r
  end.

(** The integer a numeral with separating commas denotes: its digits,
    commas dropped.  [None] when another character occurs. *)
Fixpoint numeral_digits (s : string) (acc : Z) : option Z :=
  match s with
  | EmptyString => Some acc
  | String c r =>
      if Str.is_digit c then numeral_digits r (10 * acc + Str.digit_val c)
      else if Ascii.eqb c "," then numeral_digits r acc
      else None
  end.

Fixpoint has_digit (s : string) : bool :=
  match s with
  | EmptyString => false
  | String c r => Str.is_digit c || has_digit r
  end.

Definition numeral_value (s : string) : option Z :=
  if has_digit s then numeral_digits s 0 else None.

(** The sink calls of a trace, in order. *)
Fixpoint inserts (tr : list event) : list dict :=
  match tr with
  | [] => []
  | SinkInsert d :: tr' => d :: inserts tr'
  | _ :: tr' => inserts tr'
  end.

(** The files a trace creates, in order. *)
Fixpoint files_written (tr : list event) : list string :=
  match tr with
  | [] => []
  | WriteCsv p _ :: tr' => p :: files_written tr'
  | OpenWrite p :: tr' => p :: files_written tr'
  | _ :: tr' => files_written tr'
  end.

(** The record the loader hands to the sink for a row. *)
Definition payload (float_repr : pyfloat -> string) (row : dict) : dict :=
  match prepare_song_data float_repr row with
  | (_, Ok d) => d
  | (_, Raise _) => []
  end.

(** Every row of [rows] reaches the sink and the sink, started in [w],
    accepts each of them in turn: the state it is left in. *)
Fixpoint sink_accepts (float_repr : pyfloat -> string) {W : Type}
    (sink_insert : W -> dict -> W * option string)
    (w : W) (rows : list dict) : option W :=
  match rows with
  | [] => Some w
  | row :: rows' =>
      match prepare_song_data float_repr row with
      | (_, Ok d) =>
          match dict_get "title" d, sink_insert w d with
          | Some _, (w', None) => sink_accepts float_repr sink_insert w' rows'
          | _, _ => None
          end
      | (_, Raise _) => None
      end
  end.

Definition is_summary (e : event) : bool :=
  match e with LogSummary _ _ _ => true | _ => false end.

Definition is_warning (e : event) : bool :=
  match e with LogWarning _ => true | _ => false end.

(** The text fields of a record, as the data model lists them. *)
Definition text_fields : list string :=
  [ "title"; "artist"; "language"; "genre"; "playlists_name"; "energy";
    "youtube_url"; "spotify_url"; "album_name"; "album_date" ].

(** A string that does not begin with a character of [p]. *)
Definition clean_head (p : ascii -> bool) (s : string) : Prop :=
  match s with EmptyString => True | String c _ => p c = false end.

(** The text [clean_number] hands to [float]. *)
Definition cleaned (s : string) : string :=
  Str.remove_char " " (Str.remove_char "," s).

Fixpoint digits_only (s : string) : bool :=
  match s with
  | EmptyString => true
  | String c r => Str.is_digit c && digits_only r
  end.

(** The sign a numeral is written with. *)
Definition sign_text (neg : bool) : string := if neg then "-" else "".

(** No character of the string is white space for [float]. *)
Fixpoint spaceless (s : string) : bool :=
  match s with
  | EmptyString => true
  | String c r => negb (Float.is_space c) && spaceless r
  end.

(** What ends the digits of a numeral: nothing, or the point. *)
Definition ends_digits (v : string) : Prop :=
  v = "" \/ exists w, v = String "." w.

(** The record a failed row leaves in [failed_records]. *)
Definition failed_record (row : dict) (e : exn) (t : datetime) : dict :=
  dict_set "error_time" (VStr (strftime_log t))
    (dict_set "error_message" (VStr (str_exn e)) (to_dict row)).

(** ** Sample data *)

Module Sample.

(** No sample below holds a float whose text is needed. *)
Definition float_repr (f : pyfloat) : string := "nan".

Definition clock (n : nat) : datetime :=
  {| year := 2024; month := 10; day := 5;
     hour := 9; minute := 30; second := n |}.

(** A sink that accepts every record. *)
Definition accept_all (w : unit) (d : dict) : unit * option string :=
  (w, None).

(** A sink that counts its calls and rejects call number [k] (from 0)
    with an exception of text [text]. *)
Definition reject_nth (k : nat) (text : string) (w : nat) (d : dict)
    : nat * option string :=
  (S w, if Nat.eqb w k then Some text else None).

Definition song (title views : value) (album_date : value) : dict :=
  [ ("title", title); ("artist", VStr "Artist");
    ("average_score", VFloat (FFin false 17 (-1)));
    ("score_2024_10", VInt 9); ("score_2024_q3", VInt 8);
    ("score_2024_q2", VNone); ("score_2024_q1", VNone);
    ("score_2023", VInt 7); ("album_date", album_date);
    ("language", VStr "es"); ("genre", VStr " rock ");
    ("playlists_name", VNone); ("energy", VStr "high");
    ("youtube_url", VStr "https://youtu.be/x");
    ("youtube_views", views);
    ("spotify_url", VNone); ("album_name", VStr "Album") ].

Definition row_a : dict := song (VStr "A") (VInt 1500) (VDate 2024 1 2).
Definition row_b : dict := song (VStr "B") (VStr "2,000") (VStr "2023-05-06").
Definition row_c : dict := song (VStr "C") (VStr "7") VNone.
Definition row_inf : dict := song (VStr "D") (VStr "inf") (VStr "2023-05-06").
Definition row_untitled : dict := song VNone (VInt 3) (VDate 2024 1 2).
Definition row_blank_date : dict := song (VStr "E") (VInt 3) (VStr " ").

Definition start {W} (w : W) : state W :=
  {| sink := w; ticks := O; failed_records := []; trace := [] |}.

End Sample.

(** ** Column labels *)

(** [str.lower] on code points below 256: the capital letters of ASCII
    and of Latin-1 (the multiplication sign, 215, is no letter). *)
Definition py_lower_char (c : ascii) : ascii :=
  let n := Str.code c in
  if ((65 <=? n) && (n <=? 90))
     || ((192 <=? n) && (n <=? 222) && negb (n =? 215))
  then ascii_of_N (Z.to_N (n + 32)) else c.

Fixpoint py_lower (s : string) : string :=
  match s with
  | EmptyString => EmptyString
  | String c r => String (py_lower_char c) (py_lower r)
  end.

(** What [read_csv] makes of one column label:
    [df.columns.str.lower().str.strip()]. *)
Definition normalize_column (name : string) : string :=
  Str.strip (py_lower name).

Definition normalize_columns (columns : list string) : list string :=
  map normalize_column columns.

(** ** The entry point *)

(** What [main] does and logs, the importer's events among them. *)
Inductive main_event : Type :=
| ReadCsv (path : string)
| FromImporter (e : event)
| LogCompleted
| LogMainError (msg : string).

Definition credentials_msg : string :=
  "Las credenciales de Supabase no est" ++ String (ascii_of_nat 225)
  "n configuradas correctamente.".

(** The truth value of what [os.getenv] returns. *)
Definition truthy (o : option string) : bool :=
  match o with
  | Some s => negb (Str.is_empty s)
  | None => false
  end.

Section Main.

Variable float_repr : pyfloat -> string.
Variable W : Type.
Variable sink_insert : W -> dict -> W * option string.
Variable clock : nat -> datetime.

(** The environment, once [load_dotenv] has run. *)
Variable getenv : string -> option string.

(** [supabase.create_client], which may raise. *)
Variable create_client : option string -> option string -> res W.

(** [read_csv] is left open: the data frame it returns for a path, or
    the exception it raises again. *)
Variable read_csv : string -> res (list dict).

(** [SongDataImporter.__init__] *)
Definition new_importer (supabase_url supabase_key : option string)
    : res (state W) :=
  res_bind (create_client supabase_url supabase_key) (fun supabase =>
  Ok {| sink := supabase; ticks := O; failed_records := []; trace := [] |}).

(** The [try] block of [main]. *)
Definition main_try : list main_event * res unit :=
  let supabase_url := getenv "SUPABASE_URL" in
  let supabase_key := getenv "SUPABASE_KEY" in
  if negb (forallb truthy [supabase_url; supabase_key])
  then ([], Raise (ValueError credentials_msg))
  else
    match new_importer supabase_url supabase_key with
    | Raise e => ([], Raise e)
    | Ok importer =>
        let csv_path := "songs2.csv" in
        match read_csv csv_path with
        | Raise e => ([ReadCsv csv_path], Raise e)
        | Ok df =>
            match import_songs float_repr sink_insert clock df importer with
            | (st, _, r) =>
                let tr := ReadCsv csv_path :: map FromImporter (trace st) in
                match r with
                | Raise e => (tr, Raise e)
                | Ok _ => ((tr ++ [LogCompleted])%list, Ok tt)
                end
            end
        end
    end.

Definition main : list main_event * res unit :=
  match main_try with
  | (tr, Raise e) => ((tr ++ [LogMainError (str_exn e)])%list, Raise e)
  | (tr, Ok _) => (tr, Ok tt)
  end.

End Main.

Arguments new_importer {W} create_client supabase_url supabase_key.
Arguments main_try float_repr {W} sink_insert clock getenv create_client
  read_csv.
Arguments main float_repr {W} sink_insert clock getenv create_client
  read_csv.

(** ** More inputs named by the properties *)

(** A cell [clean_number] reads as an infinity. *)
Definition is_infinite (v : value) : bool :=
  match v with
  | VFloat (FInf _) => true
  | VStr s =>
      match Float.of_string (cleaned s) with
      | Some (FInf _) => true
      | _ => false
      end
  | _ => false
  end.

(** A non-empty string that is no number, or reads as a NaN. *)
Definition unreadable (v : value) : bool :=
  match v with
  | VStr s =>
      negb (Str.is_empty s)
      && match Float.of_string (cleaned s) with
         | Some FNan | None => true
         | Some _ => false
         end
  | _ => false
  end.

(** The row has every column the record builder looks up. *)
Definition has_columns (row : dict) : bool :=
  forallb (fun f => match dict_get f row with
                    | Some _ => true
                    | None => false
                    end) fields.

Definition views_infinite (row : dict) : bool :=
  match dict_get "youtube_views" row with
  | Some v => is_infinite v
  | None => false
  end.

(** The fields whose value in the literal is not [None]. *)
Definition field_kept (float_repr : pyfloat -> string) (row : dict)
    (f : string) : bool :=
  match field_value float_repr row f with
  | (_, Ok v) => negb (is_none v)
  | (_, Raise _) => false
  end.

(** The types a record may hold. *)
Definition plain (v : value) : bool :=
  match v with
  | VInt _ | VStr _ => true
  | VFloat f => negb (Float.is_nan f)
  | _ => false
  end.

Definition json_encodable (v : value) : bool :=
  match json_type_error v with
  | Some _ => false
  | None => true
  end.

Definition row_encodable (row : dict) : bool :=
  forallb (fun kv => json_encodable (snd kv)) row.

(** The rows the loader hands to the sink: those with a record, and a
    title in it. *)
Definition reaches_sink (float_repr : pyfloat -> string) (row : dict)
    : bool :=
  match prepare_song_data float_repr row with
  | (_, Ok d) =>
      match dict_get "title" d with
      | Some _ => true
      | None => false
      end
  | (_, Raise _) => false
  end.

(** The sink calls of a row: its record, when it has one with a title. *)
Definition sent (float_repr : pyfloat -> string) (row : dict)
    : list dict :=
  if reaches_sink float_repr row then [payload float_repr row] else [].

Definition preparable (float_repr : pyfloat -> string) (row : dict)
    : bool :=
  match prepare_song_data float_repr row with
  | (_, Ok _) => true
  | (_, Raise _) => false
  end.

(** The loop is not left on an exception: there is no row, or the first
    one has a record. *)
Definition first_preparable (float_repr : pyfloat -> string)
    (df : list dict) : bool :=
  match df with
  | [] => true
  | row :: _ => preparable float_repr row
  end.

Fixpoint main_inserts (tr : list main_event) : list dict :=
  match tr with
  | [] => []
  | FromImporter (SinkInsert d) :: tr' => d :: main_inserts tr'
  | _ :: tr' => main_inserts tr'
  end.

Definition is_main_error (e : main_event) : bool :=
  match e with LogMainError _ => true | _ => false end.

Definition is_completed (e : main_event) : bool :=
  match e with LogCompleted => true | _ => false end.

Definition is_bad_data (e : event) : bool :=
  match e with LogBadData _ => true | _ => false end.

(** ** A sample environment *)

Module Demo.

Definition getenv (name : string) : option string :=
  if String.eqb name "SUPABASE_URL" then Some "https://x.supabase.co"
  else if String.eqb name "SUPABASE_KEY" then Some "key"
  else None.

(** The key is set, but empty. *)
Definition empty_key (name : string) : option string :=
  if String.eqb name "SUPABASE_URL" then Some "https://x.supabase.co"
  else if String.eqb name "SUPABASE_KEY" then Some ""
  else None.

Definition create_client (url key : option string) : res nat := Ok O.

Definition read_csv (path : string) : res (list dict) :=
  Ok [Sample.row_b; Sample.row_c; Sample.row_b].

(** [Sample.row_b] with its columns in another order and one more. *)
Definition row_b_extra : dict :=
  (("comment", VStr "x") :: rev Sample.row_b)%list.

Definition row_no_genre : dict :=
  filter (fun kv => negb (String.eqb (fst kv) "genre")) Sample.row_b.

Definition failing : state unit :=
  {| sink := tt; ticks := 4%nat;
     failed_records := [Sample.row_a]; trace := [] |}.

End Demo.

(** * Properties *)

(** ** Reading floats: a few values checked against CPython *)

Example float_examples :
  Float.of_string "1234567" = Some (FFin false (1234567 * 2 ^ 32) (-32))
  /\ Float.of_string "9007199254740993" = Some (FFin false (2 ^ 52) 1)
  /\ Float.of_string "0.1" = Some (FFin false 0x1999999999999A (-56))
  /\ Float.of_string " -1_0.5e1 " = Some (FFin true (105 * 2 ^ 46) (-46))
  /\ Float.of_string "1e400" = Some (FInf false)
  /\ Float.of_string "1e23" = Some (FFin false 0x152D02C7E14AF6 24)
  /\ Float.of_string "5e-324" = Some (FFin false 1 (-1074))
  /\ Float.of_string "2e-324" = Some (FFin false 0 (-1074))
  /\ Float.of_string "1.7976931348623159e308" = Some (FInf false)
  /\ Float.of_string "1.7976931348623157e308"
     = Some (FFin false (2 ^ 53 - 1) 971)
  /\ Float.of_string "-Infinity" = Some (FInf true)
  /\ Float.of_string "NaN" = Some FNan
  /\ Float.of_string "1_" = None
  /\ Float.of_string "1._5" = None
  /\ Float.of_string "." = None
  /\ Float.of_string "1." = Some (FFin false (2 ^ 52) (-52))
  /\ Float.of_string ".5" = Some (FFin false (2 ^ 52) (-53))
  /\ Float.of_string "1e" = None
  /\ Float.of_string "" = None
  /\ Float.of_string "1 2" = None.
Proof. vm_compute. repeat split. Qed.

(** ** Stripping *)

Section Strip.

Variable p : ascii -> bool.

Lemma rstrip_by_idem (s : string) :
  Str.rstrip_by p (Str.rstrip_by p s) = Str.rstrip_by p s.
Proof.
  induction s as [|c r IH]; simpl; [reflexivity|].
  destruct (p c && Str.is_empty (Str.rstrip_by p r)) eqn:E; simpl.
  - reflexivity.
  - now rewrite IH, E.
Qed.

Lemma lstrip_by_clean_head (s : string) : clean_head p (Str.lstrip_by p s).
Proof.
  induction s as [|c r IH]; simpl; [exact I|].
  destruct (p c) eqn:E; simpl; auto.
Qed.

Lemma lstrip_by_fixed (s : string) : clean_head p s -> Str.lstrip_by p s = s.
Proof. destruct s as [|c r]; simpl; intros H; [|rewrite H]; reflexivity. Qed.

Lemma rstrip_by_clean_head (s : string) :
  clean_head p s -> clean_head p (Str.rstrip_by p s).
Proof. destruct s as [|c r]; simpl; intros H; [|rewrite H]; simpl; auto. Qed.

Lemma strip_by_idem (s : string) :
  let t := Str.rstrip_by p (Str.lstrip_by p s) in
  Str.rstrip_by p (Str.lstrip_by p t) = t.
Proof.
  intros t. subst t.
  rewrite lstrip_by_fixed
    by apply rstrip_by_clean_head, lstrip_by_clean_head.
  apply rstrip_by_idem.
Qed.

End Strip.

Lemma strip_idem (s : string) : Str.strip (Str.strip s) = Str.strip s.
Proof. apply strip_by_idem. Qed.

Lemma lstrip_all_space (s : string) :
  all_space s = true -> Str.lstrip_by Str.is_space s = EmptyString.
Proof.
  induction s as [|c r IH]; simpl; [reflexivity|].
  intros H. apply andb_true_iff in H as [Hc Hr]. now rewrite Hc, IH.
Qed.

Lemma strip_all_space (s : string) :
  all_space s = true -> Str.strip s = EmptyString.
Proof. intros H. unfold Str.strip. now rewrite lstrip_all_space. Qed.

(** ** The value normalizer *)

Section Normalizer.

Variable float_repr : pyfloat -> string.

Lemma clean_number_null (v : value) :
  isna v || eq_empty v || is_none v = true -> clean_number v = lret VNone.
Proof. intros H. unfold clean_number. now rewrite H. Qed.

Lemma clean_value_null (v : value) (f : string) :
  isna v || eq_empty v || is_none v = true ->
  clean_value float_repr v f = lret VNone.
Proof. intros H. unfold clean_value. now rewrite H. Qed.

(** What [clean_number] returns is [None] or an [int]. *)
Lemma clean_number_shape (x v : value) (l : list event) :
  clean_number x = (l, Ok v) -> v = VNone \/ exists z, v = VInt z.
Proof.
  unfold clean_number.
  destruct (isna x || eq_empty x || is_none x);
    [intros [= _ <-]; now left|].
  destruct x as [| | |b|z|f|s|y m d]; simpl;
    try (intros [= _ <-]; eauto; fail).
  - destruct (py_int f) as [z|[]]; simpl; intros [= _ <-]; eauto.
  - destruct (py_float _) as [f|[]]; simpl; try (intros [= _ <-]; eauto; fail).
    destruct (py_int f) as [z|[]]; simpl; intros [= _ <-]; eauto.
Qed.

(** What [clean_value] returns is never a missing-value marker. *)
Lemma clean_value_shape (x v : value) (f : string) (l : list event) :
  clean_value float_repr x f = (l, Ok v) -> v = VNone \/ isna v = false.
Proof.
  unfold clean_value.
  destruct (isna x || eq_empty x || is_none x) eqn:E;
    [intros [= _ <-]; now left|].
  destruct (String.eqb f "youtube_views").
  - intros H. apply clean_number_shape in H as [->|[z ->]]; auto.
  - destruct x as [| | |b|z|g|s|y m d]; simpl in *;
      try discriminate; try (intros [= _ <-]; auto; fail).
    destruct g; simpl in *; try discriminate; intros [= _ <-]; auto.
Qed.

End Normalizer.

(** ** Mappings *)

Lemma dict_get_absent (k : string) (d : dict) :
  ~ In k (map fst d) -> dict_get k d = None.
Proof.
  induction d as [|[k' v] d IH]; simpl; [reflexivity|].
  intros H. destruct (String.eqb_spec k k') as [->|Hk].
  - elim H. now left.
  - apply IH. intros Hin. apply H. now right.
Qed.

Lemma filter_keys_absent (k : string) (d : dict) :
  ~ In k (map fst d) -> ~ In k (map fst (filter not_none d)).
Proof.
  intros H Hin. apply H. apply in_map_iff in Hin as [kv [<- Hkv]].
  apply filter_In in Hkv as [Hkv _]. now apply in_map.
Qed.

(** In a mapping that gives key [k] one value [v] only, the filter of
    [prepare_song_data] keeps [k] exactly when [v] is not [None]. *)
Lemma dict_get_filter (k : string) (v : value) (d : dict) :
  (forall v', In (k, v') d -> v' = v) ->
  In k (map fst d) ->
  dict_get k (filter not_none d) = if is_none v then None else Some v.
Proof.
  induction d as [|[k' v0] d IH]; simpl; [intros _ []|].
  intros Hv Hin.
  assert (Hv' : forall v', In (k, v') d -> v' = v) by (intros; apply Hv; auto).
  destruct (String.eqb_spec k k') as [<-|Hk].
  - assert (v0 = v) as -> by (apply Hv; auto).
    unfold not_none at 1. cbn [snd]. destruct (is_none v) eqn:En; cbn [negb].
    + destruct (in_dec string_dec k (map fst d)) as [Hd|Hd].
      * now apply IH.
      * apply dict_get_absent, filter_keys_absent, Hd.
    + cbn [dict_get]. now rewrite String.eqb_refl.
  - destruct Hin as [Heq|Hin]; [now elim Hk|].
    destruct (not_none (k', v0)); simpl.
    + apply String.eqb_neq in Hk. rewrite Hk. now apply IH.
    + now apply IH.
Qed.

(** ** The record builder *)

Section Builder.

Variable float_repr : pyfloat -> string.

Lemma lbind_ok {A B} (c : logged A) (k : A -> logged B)
    (l : list event) (b : B) :
  lbind c k = (l, Ok b) ->
  exists l1 a l2, c = (l1, Ok a) /\ k a = (l2, Ok b) /\ l = (l1 ++ l2)%list.
Proof.
  destruct c as [l1 [a|e]]; simpl; [|discriminate].
  destruct (k a) as [l2 r] eqn:Ek. intros [= <- ->].
  now exists l1, a, l2.
Qed.

Lemma build_literal_entries (row : dict) (fs : list string)
    (l : list event) (d : dict) :
  build_literal float_repr row fs = (l, Ok d) ->
  map fst d = fs
  /\ forall k v, In (k, v) d ->
       exists lv, field_value float_repr row k = (lv, Ok v).
Proof.
  revert l d. induction fs as [|f fs IH]; simpl; intros l d H.
  - injection H as _ <-. split; [reflexivity|intros k v []].
  - apply lbind_ok in H as (l1 & v & l2 & Hf & H & _).
    apply lbind_ok in H as (l3 & d' & l4 & Hd & H & _).
    injection H as _ <-. apply IH in Hd as [Hk He]. simpl. split.
    + now rewrite Hk.
    + intros k v' [[= <- <-]|Hin]; eauto.
Qed.

Lemma prepare_song_data_get (row : dict) (l lv : list event) (d : dict)
    (f : string) (v : value) :
  prepare_song_data float_repr row = (l, Ok d) ->
  In f fields ->
  field_value float_repr row f = (lv, Ok v) ->
  dict_get f d = if is_none v then None else Some v.
Proof.
  unfold prepare_song_data. intros H Hf Hv.
  apply lbind_ok in H as (l1 & d0 & l2 & Hb & H & _).
  injection H as _ <-.
  apply build_literal_entries in Hb as [Hk He].
  apply dict_get_filter.
  - intros v' Hin. apply He in Hin as [lv' Hin]. congruence.
  - now rewrite Hk.
Qed.

Lemma field_value_shape (row : dict) (f : string) (l : list event)
    (v : value) :
  field_value float_repr row f = (l, Ok v) -> v = VNone \/ isna v = false.
Proof.
  unfold field_value. destruct (series_get row f) as [x|e]; [|discriminate].
  destruct (String.eqb f "album_date").
  - intros [= _ <-]. destruct (isna x); auto.
  - apply clean_value_shape.
Qed.

End Builder.

(** C4. The record [prepare_song_data] returns holds no key whose value
    is [None] (nor any other missing-value marker), and every field whose
    cleaned value is [None] is absent from it. *)
Theorem prepare_song_data_no_null :
  forall (float_repr : pyfloat -> string) (row : dict)
         (l : list event) (d : dict),
    prepare_song_data float_repr row = (l, Ok d) ->
    (forall k v, In (k, v) d -> v <> VNone /\ isna v = false)
    /\ (forall f lv, In f fields ->
          field_value float_repr row f = (lv, Ok VNone) ->
          dict_get f d = None).
Proof.
  intros float_repr row l d H. split.
  - intros k v Hin. pose proof H as H0. unfold prepare_song_data in H0.
    apply lbind_ok in H0 as (l1 & d0 & l2 & Hb & H0 & _).
    injection H0 as _ <-. apply filter_In in Hin as [Hin Hnn].
    apply build_literal_entries in Hb as [_ He].
    apply He in Hin as [lv Hin]. apply field_value_shape in Hin.
    unfold not_none in Hnn; simpl in Hnn.
    destruct Hin as [->|Hna]; [discriminate|].
    split; [|exact Hna]. intros ->. discriminate.
  - intros f lv Hf Hv.
    now rewrite (prepare_song_data_get float_repr row l lv d f VNone).
Qed.

Lemma prepare_song_data_no_null_witness :
  exists d, prepare_song_data Sample.float_repr Sample.row_c = ([], Ok d)
    /\ (forall k v, In (k, v) d -> v <> VNone /\ isna v = false)
    /\ dict_get "album_date" d = None.
Proof.
  eexists. split; [vm_compute; reflexivity|].
  destruct (prepare_song_data_no_null Sample.float_repr Sample.row_c [] _
              eq_refl) as [H1 H2].
  split; [exact H1|].
  apply (H2 "album_date" []); [simpl; tauto|reflexivity].
Defined.

(** C5, as stated, fails: white space alone is cleaned to the empty
    string, and the empty string is cleaned to [None]. *)
Lemma clean_value_not_idempotent :
  ~ (forall (x : value) (f : string) (v : value) (l : list event),
       clean_value Sample.float_repr x f = (l, Ok v) ->
       exists l', clean_value Sample.float_repr v f = (l', Ok v)).
Proof.
  intros H.
  destruct (H (VStr " ") "title" (VStr "") [] eq_refl) as [l' H'].
  discriminate H'.
Qed.

(** C5, amended. A cleaned value other than the empty string is returned
    unchanged, and without a warning, when [clean_value] is applied to it
    again under the same field name. *)
Theorem clean_value_idempotent :
  forall (float_repr : pyfloat -> string) (x : value) (f : string)
         (v : value) (l : list event),
    clean_value float_repr x f = (l, Ok v) ->
    v <> VStr "" ->
    clean_value float_repr v f = ([], Ok v).
Proof.
  intros float_repr x f v l H Hv. unfold clean_value in H.
  destruct (isna x || eq_empty x || is_none x) eqn:E;
    [injection H as _ <-; reflexivity|].
  unfold clean_value.
  destruct (String.eqb f "youtube_views") eqn:Ef.
  - apply clean_number_shape in H as [->|[z ->]]; reflexivity.
  - assert (Hs : forall s, v = VStr (Str.strip s) ->
              clean_value float_repr v f = ([], Ok v)).
    { intros s ->. unfold clean_value. rewrite Ef.
      destruct (Str.strip s) as [|c r] eqn:Es; [now elim Hv|].
      simpl. now rewrite <- Es, strip_idem. }
    unfold clean_value in Hs. rewrite Ef in Hs.
    destruct x as [| | |b|z|g|s|y m d]; simpl in *; try discriminate;
      try (injection H as _ <-; reflexivity);
      try (injection H as _ <-; eapply Hs; reflexivity).
    destruct g; simpl in *; try discriminate; injection H as _ <-;
      reflexivity.
Qed.

Lemma clean_value_idempotent_witness :
  clean_value Sample.float_repr (VStr " rock ") "genre"
  = ([], Ok (VStr "rock"))
  /\ clean_value Sample.float_repr (VStr "rock") "genre"
     = ([], Ok (VStr "rock")).
Proof.
  split; [reflexivity|].
  apply (clean_value_idempotent Sample.float_repr (VStr " rock ") "genre"
           (VStr "rock") []); [reflexivity|discriminate].
Defined.

(** C7. [clean_value] returns [None] on every missing-value marker and on
    the empty string, yet it is not total: on the view-count field the
    [OverflowError] of [int] on an infinity leaves [clean_number], whose
    handler names [ValueError] and [TypeError] only. *)
Theorem clean_value_overflow_escapes :
  forall (float_repr : pyfloat -> string),
    (forall v f, isna v || eq_empty v || is_none v = true ->
                 clean_value float_repr v f = ([], Ok VNone))
    /\ clean_value float_repr (VStr "inf") "youtube_views"
       = ([], Raise (OverflowError "cannot convert float infinity to integer"))
    /\ clean_value float_repr (VStr "1e999") "youtube_views"
       = ([], Raise (OverflowError "cannot convert float infinity to integer"))
    /\ clean_value float_repr (VFloat (FInf false)) "youtube_views"
       = ([], Raise (OverflowError "cannot convert float infinity to integer")).
Proof.
  intros float_repr. split; [|repeat split; vm_compute; reflexivity].
  intros v f H. now apply clean_value_null.
Qed.

Lemma clean_value_overflow_escapes_witness :
  clean_value Sample.float_repr (VFloat FNan) "youtube_views" = ([], Ok VNone).
Proof.
  apply (proj1 (clean_value_overflow_escapes Sample.float_repr)).
  reflexivity.
Defined.

(** ** White space in a cell *)

(** C10, as stated, fails on [album_date], a text field that
    [prepare_song_data] does not pass through [clean_value]. *)
Lemma blank_album_date_kept :
  ~ (forall (row : dict) (f s : string) (l : list event) (d : dict),
       In f text_fields -> f <> "youtube_views" ->
       s <> "" -> all_space s = true ->
       dict_get f row = Some (VStr s) ->
       prepare_song_data Sample.float_repr row = (l, Ok d) ->
       dict_get f d = Some (VStr "")).
Proof.
  intros H.
  assert (E : exists d,
             prepare_song_data Sample.float_repr Sample.row_blank_date
             = ([], Ok d)
             /\ dict_get "album_date" d = Some (VStr " "))
    by (eexists; split; vm_compute; reflexivity).
  destruct E as (d & E & G).
  assert (Hin : In "album_date" text_fields) by (simpl; tauto).
  specialize (H Sample.row_blank_date "album_date" " " [] d Hin).
  rewrite G in H.
  discriminate H; solve [discriminate | reflexivity | exact E].
Qed.

(** C10, amended. On white space alone [clean_value] returns the empty
    string under every field name but the view count, and
    [prepare_song_data] keeps the key with the empty string for every
    field but the view count and [album_date]; [album_date] is kept with
    its text as it is. *)
Theorem blank_text_kept_empty :
  forall (float_repr : pyfloat -> string) (s : string),
    s <> "" -> all_space s = true ->
    (forall f, f <> "youtube_views" ->
       clean_value float_repr (VStr s) f = ([], Ok (VStr "")))
    /\ (forall row f l d,
          In f fields -> f <> "youtube_views" -> f <> "album_date" ->
          dict_get f row = Some (VStr s) ->
          prepare_song_data float_repr row = (l, Ok d) ->
          dict_get f d = Some (VStr ""))
    /\ (forall row l d,
          dict_get "album_date" row = Some (VStr s) ->
          prepare_song_data float_repr row = (l, Ok d) ->
          dict_get "album_date" d = Some (VStr s)).
Proof.
  intros float_repr s Hne Hsp.
  assert (Hc : forall f, f <> "youtube_views" ->
             clean_value float_repr (VStr s) f = ([], Ok (VStr ""))).
  { intros f Hf. unfold clean_value.
    destruct s as [|c r]; [now elim Hne|]. simpl.
    apply String.eqb_neq in Hf. rewrite Hf.
    now rewrite strip_all_space. }
  split; [exact Hc|]. split.
  - intros row f l d Hin Hv Ha Hrow Hp.
    rewrite (prepare_song_data_get float_repr row l [] d f (VStr "") Hp Hin);
      [reflexivity|].
    unfold field_value, series_get. rewrite Hrow.
    apply String.eqb_neq in Ha. rewrite Ha. now apply Hc.
  - intros row l d Hrow Hp.
    rewrite (prepare_song_data_get float_repr row l [] d "album_date" (VStr s)
               Hp); [reflexivity|simpl; tauto|].
    unfold field_value, series_get. rewrite Hrow. reflexivity.
Qed.

Lemma blank_text_kept_empty_witness :
  clean_value Sample.float_repr (VStr " ") "title" = ([], Ok (VStr "")).
Proof.
  apply (blank_text_kept_empty Sample.float_repr " ");
    [discriminate|reflexivity|discriminate].
Defined.

(** ** Numerals *)

(** A non-negative integer up to [2^53] is a binary64 value, and [int]
    gives it back. *)
Lemma py_int_of_decimal (n : Z) :
  0 <= n <= 2 ^ 53 -> py_int (Float.of_decimal false n 0) = Ok n.
Proof.
  intros [H0 H1]. unfold Float.of_decimal. cbn [Z.leb Z.compare].
  rewrite Z.pow_0_r, Z.mul_1_r.
  destruct (Z.eq_dec n 0) as [->|Hn]; [reflexivity|].
  destruct (Z.eq_dec n (2 ^ 53)) as [->|Hn53]; [vm_compute; reflexivity|].
  assert (Hl : 0 <= Z.log2 n <= 52).
  { split; [apply Z.log2_nonneg|].
    assert (Z.log2 n < 53) by (apply Z.log2_lt_pow2; lia). lia. }
  destruct (Z.log2_spec n ltac:(lia)) as [Hlo Hhi].
  assert (He : Float.ulp_exp n 1 = Z.log2 n - 52).
  { unfold Float.ulp_exp, Float.emin. change (Z.log2 1) with 0.
    rewrite Z.sub_0_r, (proj2 (Z.leb_le 0 _)) by lia.
    rewrite Z.mul_1_l, (proj2 (Z.leb_le _ _) Hlo). lia. }
  unfold Float.round_rat. rewrite (proj2 (Z.eqb_neq n 0) Hn), He.
  set (e := Z.log2 n - 52) in *.
  assert (Hov : (971 <? e) || ((e =? 971) && true) = false).
  { rewrite (proj2 (Z.ltb_ge _ _)), (proj2 (Z.eqb_neq _ _)) by lia.
    reflexivity. }
  destruct (Z.eq_dec e 0) as [E0|E0].
  - rewrite E0. cbn [Z.leb Z.compare]. rewrite Z.pow_0_r, Z.mul_1_l.
    rewrite Z.div_1_r, Z.mod_1_r. cbn. reflexivity.
  - rewrite (proj2 (Z.leb_gt 0 e)) by lia.
    rewrite Z.div_1_r, Z.mod_1_r. cbn [Z.mul Z.ltb Z.eqb Z.compare orb andb].
    rewrite (proj2 (Z.ltb_ge _ _)), (proj2 (Z.eqb_neq e 971)) by lia.
    cbn [orb andb py_int].
    rewrite Z.shiftl_div_pow2 by lia.
    rewrite Z.div_mul; [reflexivity|]. apply Z.pow_nonzero; lia.
Qed.

(** Facts about a digit, by cases on the character. *)
Lemma digit_facts (c : ascii) :
  Str.is_digit c = true ->
  Ascii.eqb c "," = false /\ Ascii.eqb c " " = false
  /\ Float.is_space c = false.
Proof.
  destruct c as [[] [] [] [] [] [] [] []]; vm_compute;
    (discriminate || (repeat split; reflexivity)).
Qed.

Lemma numeral_cleaned (s : string) (acc n : Z) :
  numeral_digits s acc = Some n ->
  digits_only (cleaned s) = true
  /\ forall cnt, exists k, Float.digits_tail (cleaned s) acc cnt = (n, k, "").
Proof.
  revert acc. induction s as [|c r IH]; intros acc; simpl.
  - intros [= <-]. split; [reflexivity|]. intros cnt. now exists cnt.
  - destruct (Str.is_digit c) eqn:Ed.
    + destruct (digit_facts c Ed) as (Hc & Hs & _).
      intros H. apply IH in H as [Hd Ht]. unfold cleaned in *. simpl.
      rewrite Hc. simpl. rewrite Hs. simpl. rewrite Ed, Hd.
      split; [reflexivity|]. intros cnt. apply Ht.
    + destruct (Ascii.eqb c ",") eqn:Ec; [|discriminate].
      intros H. apply IH in H. unfold cleaned in *. simpl. now rewrite Ec.
Qed.

Lemma numeral_digitpart (s : string) (acc n : Z) :
  has_digit s = true ->
  numeral_digits s acc = Some n ->
  exists c r k, cleaned s = String c r /\ Str.is_digit c = true
    /\ Float.digitpart (cleaned s) acc = Some (n, k, "").
Proof.
  revert acc. induction s as [|c r IH]; intros acc; simpl; [discriminate|].
  destruct (Str.is_digit c) eqn:Ed; simpl.
  - destruct (digit_facts c Ed) as (Hc & Hs & _).
    intros _ H. apply numeral_cleaned in H as [_ Ht].
    destruct (Ht 1) as [k Hk].
    exists c, (cleaned r), k. unfold cleaned in *. simpl.
    rewrite Hc. simpl. rewrite Hs. simpl. rewrite Ed. now rewrite Hk.
  - destruct (Ascii.eqb c ",") eqn:Ec; [|discriminate].
    intros Hh H. destruct (IH acc Hh H) as (c' & r' & k & E1 & E2 & E3).
    exists c', r', k. unfold cleaned in *. simpl. rewrite Ec. auto.
Qed.

Lemma strip_digits_only (s : string) :
  digits_only s = true ->
  Str.rstrip_by Float.is_space (Str.lstrip_by Float.is_space s) = s.
Proof.
  intros H.
  assert (Hr : forall t, digits_only t = true ->
                 Str.rstrip_by Float.is_space t = t).
  { induction t as [|c r IH]; simpl; [reflexivity|].
    intros Hd. apply andb_true_iff in Hd as [Hc Hd].
    destruct (digit_facts c Hc) as (_ & _ & Hs). rewrite Hs. simpl.
    now rewrite IH. }
  destruct s as [|c r]; [reflexivity|]. simpl in H |- *.
  apply andb_true_iff in H as [Hc Hd].
  destruct (digit_facts c Hc) as (_ & _ & Hs). rewrite Hs.
  apply (Hr (String c r)). simpl. now rewrite Hc.
Qed.

(** [float] of a string of digits reads them as one integer. *)
Lemma of_string_digits (t : string) (n k : Z) :
  digits_only t = true ->
  Float.digitpart t 0 = Some (n, k, "") ->
  Float.of_string t = Some (Float.of_decimal false n 0).
Proof.
  intros Hd Hp. unfold Float.of_string. rewrite strip_digits_only by exact Hd.
  destruct t as [|c r]; [discriminate|].
  simpl in Hd. apply andb_true_iff in Hd as [Hc _].
  destruct c as [[] [] [] [] [] [] [] []]; try discriminate Hc;
    cbn [Float.sign]; unfold Float.number; rewrite Hp;
    cbn -[Float.of_decimal]; reflexivity.
Qed.

(** [clean_number] on a numeral with separating commas, up to [2^53]. *)
Lemma clean_number_numeral (s : string) (n : Z) :
  numeral_value s = Some n -> n <= 2 ^ 53 ->
  clean_number (VStr s) = ([], Ok (VInt n)).
Proof.
  unfold numeral_value. destruct (has_digit s) eqn:Eh; [|discriminate].
  intros Hn Hle.
  assert (H0 : 0 <= n).
  { clear Hle Eh. assert (G : forall t acc m, 0 <= acc ->
        numeral_digits t acc = Some m -> 0 <= m).
    { induction t as [|c r IH]; cbn [numeral_digits]; intros acc m Ha.
      - now intros [= <-].
      - destruct (Str.is_digit c) eqn:Ed.
        + apply IH. unfold Str.is_digit, Str.digit_val in *.
          cbv zeta in Ed. apply andb_true_iff in Ed as [Ed _].
          apply Z.leb_le in Ed. lia.
        + destruct (Ascii.eqb c ","); [now apply IH|discriminate]. }
    now apply (G s 0 n). }
  destruct (numeral_digitpart s 0 n Eh Hn) as (c & r & k & E1 & E2 & E3).
  destruct (numeral_cleaned s 0 n Hn) as [Hd _].
  unfold clean_number.
  assert (Hs : s <> "") by (intros ->; discriminate).
  destruct s as [|c0 r0]; [now elim Hs|].
  cbn [isna eq_empty is_none Str.is_empty orb].
  unfold clean_number_try, py_float. fold (cleaned (String c0 r0)).
  rewrite (of_string_digits _ n k Hd E3). cbn [res_bind].
  rewrite py_int_of_decimal by lia. reflexivity.
Qed.

(** ** Numerals with a sign or a fraction *)

(** The last place [round_rat] chooses lies at most 52 binary places
    below the value, unless it is the least one. *)
Lemma ulp_exp_below (p q : Z) :
  0 < p -> 0 < q ->
  let e := Float.ulp_exp p q in
  Float.emin <= e
  /\ (e = Float.emin
      \/ (0 <= e + 52 -> q * 2 ^ (e + 52) <= p)
         /\ (e + 52 < 0 -> q <= p * 2 ^ (- (e + 52)))).
Proof.
  intros Hp Hq. cbv zeta. unfold Float.ulp_exp.
  destruct (Z.log2_spec p Hp) as [Hp1 Hp2].
  destruct (Z.log2_spec q Hq) as [Hq1 Hq2].
  pose proof (Z.log2_nonneg p) as Lp. pose proof (Z.log2_nonneg q) as Lq.
  remember (Z.log2 p) as lp eqn:Elp. remember (Z.log2 q) as lq eqn:Elq.
  remember (lp - lq) as l eqn:Edl.
  set (ge := if 0 <=? l then q * 2 ^ l <=? p else q <=? p * 2 ^ (- l)).
  set (fl := if ge then l else l - 1).
  assert (Hfl : (0 <= fl -> q * 2 ^ fl <= p)
                /\ (fl < 0 -> q <= p * 2 ^ (- fl))).
  { unfold fl, ge. destruct (0 <=? l) eqn:El.
    - apply Z.leb_le in El. destruct (q * 2 ^ l <=? p) eqn:Eg.
      + apply Z.leb_le in Eg. split; [auto|lia].
      + split.
        * intros H. assert (E : 2 ^ lp = 2 ^ (Z.succ lq) * 2 ^ (l - 1)).
          { rewrite <- Z.pow_add_r by lia. f_equal. lia. }
          assert (0 < 2 ^ (l - 1)) by (apply Z.pow_pos_nonneg; lia).
          apply Z.le_trans with (2 ^ Z.succ lq * 2 ^ (l - 1));
            [|rewrite <- E; exact Hp1].
          apply Z.mul_le_mono_nonneg_r; [lia|]. apply Z.lt_le_incl, Hq2.
        * intros H. replace (- (l - 1)) with 1 by lia.
          rewrite Z.pow_succ_r in Hq2 by lia.
          assert (E : lp = lq) by lia. rewrite E in Hp1. lia.
    - apply Z.leb_gt in El. destruct (q <=? p * 2 ^ (- l)) eqn:Eg.
      + apply Z.leb_le in Eg. split; [lia|auto].
      + split; [lia|]. intros _.
        assert (E : 2 ^ lp * 2 ^ (- (l - 1)) = 2 ^ (Z.succ lq)).
        { rewrite <- Z.pow_add_r by lia. f_equal. lia. }
        assert (0 < 2 ^ (- (l - 1))) by (apply Z.pow_pos_nonneg; lia).
        apply Z.le_trans with (2 ^ lp * 2 ^ (- (l - 1)));
          [rewrite E; apply Z.lt_le_incl, Hq2|].
        apply Z.mul_le_mono_nonneg_r; [lia|exact Hp1]. }
  split; [apply Z.le_max_r|].
  destruct (Z.max_spec (fl - 52) Float.emin) as [[_ ->]|[_ ->]];
    [now left|right].
  replace (fl - 52 + 52) with fl by lia. exact Hfl.
Qed.

(** [int(float(...))] of the rational [p / q] is its integer part, when
    [p] is below [2^53]: rounding to 53 bits then never reaches the next
    integer. *)
Lemma py_int_round_rat (neg : bool) (p q : Z) :
  0 <= p < 2 ^ 53 -> 0 < q ->
  py_int (Float.round_rat neg p q)
  = Ok (if neg then - (p / q) else p / q).
Proof.
  intros [Hp0 Hp] Hq. unfold Float.round_rat.
  destruct (Z.eqb_spec p 0) as [->|Hn].
  { rewrite Zdiv_0_l. now destruct neg. }
  destruct (ulp_exp_below p q ltac:(lia) Hq) as [Hmin He].
  set (e := Float.ulp_exp p q) in *. clearbody e. unfold Float.emin in *.
  assert (H53 : 2 ^ 53 = 2 ^ 52 * 2) by reflexivity.
  assert (He0 : e <= 0).
  { destruct He as [->|[He _]]; [lia|].
    destruct (Z_lt_le_dec 0 e) as [Hpos|]; [|assumption].
    specialize (He ltac:(lia)).
    assert (2 ^ 53 <= 2 ^ (e + 52)) by (apply Z.pow_le_mono_r; lia). nia. }
  assert (Hov : (971 <? e) = false /\ (e =? 971) = false).
  { split; [apply Z.ltb_ge|apply Z.eqb_neq]; lia. }
  destruct (Z.eq_dec e 0) as [E0|E0].
  - (* no binary place below the unit: [q] is 1 *)
    assert (q = 1) as ->.
    { destruct He as [He|[He _]]; [lia|]. rewrite E0 in He.
      specialize (He ltac:(lia)). cbn [Z.add] in He. lia. }
    rewrite E0. cbn [Z.leb Z.compare]. rewrite Z.pow_0_r, Z.mul_1_l.
    rewrite !Z.div_1_r, Z.mod_1_r. cbn [Z.mul Z.ltb Z.eqb Z.compare orb andb].
    cbn [py_int]. rewrite Z.shiftl_0_r. reflexivity.
  - assert (Hneg : e < 0) by lia.
    rewrite (proj2 (Z.leb_gt 0 e) Hneg).
    destruct Hov as [-> ->]. cbn [orb andb].
    set (S := 2 ^ (- e)).
    assert (ES : S = 2 ^ (- e)) by reflexivity.
    assert (HS : 0 < S) by (apply Z.pow_pos_nonneg; lia).
    set (m := p * S / q). set (r := (p * S) mod q).
    assert (Hdm : p * S = q * m + r) by (apply Z.div_mod; lia).
    assert (Hr : 0 <= r < q) by (apply Z.mod_pos_bound; lia).
    assert (Em : m = p * S / q) by reflexivity.
    set (I := p / q).
    assert (HI : p = q * I + p mod q) by (apply Z.div_mod; lia).
    assert (HIr : 0 <= p mod q < q) by (apply Z.mod_pos_bound; lia).
    assert (HI0 : 0 <= I) by (apply Z.div_pos; lia).
    clearbody S m r I. remember (p mod q) as rp eqn:Erp. clear Erp.
    assert (Hlo : I * S <= m).
    { rewrite Em. apply Z.div_le_lower_bound; [lia|]. nia. }
    assert (Hhi : m < (I + 1) * S).
    { rewrite Em. apply Z.div_lt_upper_bound; [lia|]. nia. }
    assert (Hup : q <= 2 * r -> m + 1 < (I + 1) * S).
    { intros Hround.
      destruct (Z_lt_le_dec q (2 * S)) as [Hq2|Hq2].
      - (* the next integer is more than half a place away *)
        destruct (Z_lt_le_dec (m + 1) ((I + 1) * S)); [assumption|].
        assert (m + 1 = (I + 1) * S) by lia. nia.
      - (* the least place: the value is far below one *)
        assert (HS' : 2 ^ 1074 <= S).
        { rewrite ES. destruct He as [->|[H1 H2]]; [cbn; lia|].
          assert (2 ^ (- e) * 2 = 2 ^ (1 - e)).
          { replace (1 - e) with (- e + 1) by lia.
            rewrite Z.pow_add_r by lia. reflexivity. }
          destruct (Z_lt_le_dec (e + 52) 0) as [Hs|Hs].
          - specialize (H2 Hs).
            assert (2 ^ (- (e + 52)) * 2 ^ 53 = 2 ^ (1 - e)).
            { rewrite <- Z.pow_add_r by lia. f_equal. lia. }
            assert (0 < 2 ^ (- (e + 52))) by (apply Z.pow_pos_nonneg; lia).
            rewrite ES in Hq2. nia.
          - specialize (H1 Hs).
            assert (2 ^ (e + 52) * 2 ^ (1 - e) = 2 ^ 53).
            { rewrite <- Z.pow_add_r by lia. f_equal. lia. }
            assert (0 < 2 ^ (e + 52)) by (apply Z.pow_pos_nonneg; lia).
            rewrite ES in Hq2. nia. }
        assert (m < 2 ^ 53).
        { rewrite Em. apply Z.div_lt_upper_bound; [lia|]. nia. }
        assert (2 ^ 53 < 2 ^ 1074) by (apply Z.pow_lt_mono_r; lia).
        nia. }
    set (m' := if (q <? 2 * r) || (q =? 2 * r) && Z.odd m then m + 1 else m).
    assert (Hm' : I * S <= m' < (I + 1) * S).
    { unfold m'. destruct ((q <? 2 * r) || (q =? 2 * r) && Z.odd m) eqn:Eb;
        [|lia].
      assert (q <= 2 * r).
      { apply orb_true_iff in Eb as [Eb|Eb].
        - apply Z.ltb_lt in Eb. lia.
        - apply andb_true_iff in Eb as [Eb _]. apply Z.eqb_eq in Eb. lia. }
      specialize (Hup ltac:(assumption)). lia. }
    clearbody m'. cbn [py_int]. rewrite Z.shiftl_div_pow2 by lia.
    rewrite <- ES.
    assert (Hd : m' / S = I).
    { symmetry. apply (Z.div_unique m' S I (m' - S * I)); lia. }
    now rewrite Hd.
Qed.

Lemma append_empty_r (s : string) : s ++ "" = s.
Proof. induction s as [|c r IH]; simpl; [reflexivity|now rewrite IH]. Qed.

Lemma spaceless_app (a b : string) :
  spaceless (a ++ b) = spaceless a && spaceless b.
Proof.
  induction a as [|c a IH]; simpl; [reflexivity|].
  now rewrite IH, andb_assoc.
Qed.

Lemma digits_only_spaceless (t : string) :
  digits_only t = true -> spaceless t = true.
Proof.
  induction t as [|c r IH]; simpl; [reflexivity|].
  intros H. apply andb_true_iff in H as [Hc Hr].
  destruct (digit_facts c Hc) as (_ & _ & ->). now rewrite IH.
Qed.

Lemma strip_spaceless (t : string) :
  spaceless t = true ->
  Str.rstrip_by Float.is_space (Str.lstrip_by Float.is_space t) = t.
Proof.
  intros H.
  assert (Hr : forall u, spaceless u = true ->
                 Str.rstrip_by Float.is_space u = u).
  { induction u as [|c r IH]; simpl; [reflexivity|].
    intros Hu. apply andb_true_iff in Hu as [Hc Hu].
    apply negb_true_iff in Hc. rewrite Hc. simpl. now rewrite IH. }
  rewrite lstrip_by_fixed; [now apply Hr|].
  destruct t as [|c r]; simpl in *; [exact I|].
  apply andb_true_iff in H as [Hc _]. now apply negb_true_iff in Hc.
Qed.

Lemma digit_val_bound (c : ascii) :
  Str.is_digit c = true -> 0 <= Str.digit_val c <= 9.
Proof.
  unfold Str.is_digit, Str.digit_val. cbv zeta. intros H.
  apply andb_true_iff in H as [H1 H2].
  apply Z.leb_le in H1. apply Z.leb_le in H2. lia.
Qed.

Lemma digits_tail_end (v : string) (acc cnt : Z) :
  ends_digits v -> Float.digits_tail v acc cnt = (acc, cnt, v).
Proof. intros [->|[w ->]]; reflexivity. Qed.

(** The digits of a fraction, read after [acc]. *)
Lemma digits_tail_fraction (u : string) :
  digits_only u = true ->
  forall acc cnt d v,
    numeral_digits u acc = Some d -> ends_digits v ->
    Float.digits_tail (u ++ v) acc cnt
    = (d, cnt + Z.of_nat (String.length u), v).
Proof.
  induction u as [|c r IH]; intros Hu acc cnt d v; cbn [numeral_digits].
  - intros [= <-] Hv. cbn [append String.length Z.of_nat].
    rewrite Z.add_0_r. now apply digits_tail_end.
  - cbn [digits_only] in Hu. apply andb_true_iff in Hu as [Hc Hr].
    rewrite Hc. intros Hd Hv. cbn [append Float.digits_tail]. rewrite Hc.
    rewrite (IH Hr _ _ _ _ Hd Hv). cbn [String.length].
    rewrite Nat2Z.inj_succ. f_equal. f_equal. lia.
Qed.

Lemma fraction_bounds (u : string) :
  digits_only u = true ->
  forall acc d,
    0 <= acc -> numeral_digits u acc = Some d ->
    acc * 10 ^ Z.of_nat (String.length u) <= d
    < (acc + 1) * 10 ^ Z.of_nat (String.length u).
Proof.
  induction u as [|c r IH]; intros Hu acc d Ha; cbn [numeral_digits].
  - intros [= <-]. cbn. lia.
  - cbn [digits_only] in Hu. apply andb_true_iff in Hu as [Hc Hr].
    rewrite Hc. intros Hd. pose proof (digit_val_bound c Hc) as Hb.
    apply (IH Hr) in Hd; [|lia]. cbn [String.length].
    rewrite Nat2Z.inj_succ, Z.pow_succ_r by lia.
    assert (0 < 10 ^ Z.of_nat (String.length r))
      by (apply Z.pow_pos_nonneg; lia).
    nia.
Qed.

Lemma cleaned_digit (c : ascii) (r : string) :
  Str.is_digit c = true -> cleaned (String c r) = String c (cleaned r).
Proof.
  intros Hd. destruct (digit_facts c Hd) as (Hc & Hs & _).
  unfold cleaned. cbn [Str.remove_char]. rewrite Hc.
  cbn [Str.remove_char]. now rewrite Hs.
Qed.

Lemma cleaned_comma (c : ascii) (r : string) :
  Ascii.eqb c "," = true -> cleaned (String c r) = cleaned r.
Proof. intros Hc. unfold cleaned. cbn [Str.remove_char]. now rewrite Hc. Qed.

(** The integer part, commas dropped, read up to the end or the point. *)
Lemma digits_tail_integer (i : string) :
  forall acc n cnt v,
    numeral_digits i acc = Some n -> ends_digits v ->
    exists k, Float.digits_tail (cleaned i ++ v) acc cnt = (n, k, v).
Proof.
  induction i as [|c r IH]; intros acc n cnt v; cbn [numeral_digits].
  - intros [= <-] Hv. exists cnt. now apply digits_tail_end.
  - destruct (Str.is_digit c) eqn:Ed.
    + intros Hd Hv. destruct (IH _ _ (cnt + 1) _ Hd Hv) as [k Hk].
      exists k. rewrite (cleaned_digit c r Ed).
      cbn [append Float.digits_tail]. now rewrite Ed.
    + destruct (Ascii.eqb c ",") eqn:Ec; [|discriminate].
      intros Hd Hv. rewrite (cleaned_comma c r Ec). now apply IH.
Qed.

Lemma digitpart_integer (i : string) :
  forall acc n v,
    has_digit i = true -> numeral_digits i acc = Some n -> ends_digits v ->
    exists c r k,
      cleaned i = String c r /\ Str.is_digit c = true
      /\ Float.digitpart (cleaned i ++ v) acc = Some (n, k, v).
Proof.
  induction i as [|c r IH]; intros acc n v; cbn [has_digit numeral_digits];
    [discriminate|].
  destruct (Str.is_digit c) eqn:Ed; cbn [orb].
  - intros _ Hd Hv.
    destruct (digits_tail_integer r _ _ 1 _ Hd Hv) as [k Hk].
    exists c, (cleaned r), k. rewrite (cleaned_digit c r Ed).
    cbn [append Float.digitpart]. now rewrite Ed, Hk.
  - destruct (Ascii.eqb c ",") eqn:Ec; [|discriminate].
    intros Hh Hd Hv. rewrite (cleaned_comma c r Ec). now apply IH.
Qed.

Lemma cleaned_app (a b : string) : cleaned (a ++ b) = cleaned a ++ cleaned b.
Proof.
  unfold cleaned.
  assert (G : forall x s t, Str.remove_char x (s ++ t)
                            = Str.remove_char x s ++ Str.remove_char x t).
  { intros x s t. induction s as [|c s IH]; simpl; [reflexivity|].
    destruct (Ascii.eqb c x); simpl; now rewrite IH. }
  now rewrite !G.
Qed.

Lemma cleaned_digits (t : string) : digits_only t = true -> cleaned t = t.
Proof.
  induction t as [|c r IH]; [reflexivity|]. cbn [digits_only]. intros H.
  apply andb_true_iff in H as [Hc Hr].
  now rewrite (cleaned_digit c r Hc), IH.
Qed.

(** [float] of a numeral that begins with a digit, after its sign. *)
Lemma of_string_number (neg : bool) (c : ascii) (r : string) (d nf : Z) :
  Str.is_digit c = true -> spaceless (String c r) = true ->
  Float.number (String c r) = Some (d, nf, "") ->
  Float.of_string (sign_text neg ++ String c r)
  = Some (Float.of_decimal neg d (0 - nf)).
Proof.
  intros Hc Hs Hn. unfold Float.of_string.
  rewrite strip_spaceless
    by (rewrite spaceless_app, Hs; now destruct neg).
  destruct neg; cbn [sign_text append Float.sign].
  - destruct c as [[] [] [] [] [] [] [] []]; try discriminate Hc;
      rewrite Hn; reflexivity.
  - destruct c as [[] [] [] [] [] [] [] []]; try discriminate Hc;
      cbn [Float.sign]; rewrite Hn; reflexivity.
Qed.

Lemma numeral_digits_nonneg (t : string) :
  forall acc m, 0 <= acc -> numeral_digits t acc = Some m -> 0 <= m.
Proof.
  induction t as [|c r IH]; cbn [numeral_digits]; intros acc m Ha.
  - now intros [= <-].
  - destruct (Str.is_digit c) eqn:Ed.
    + apply IH. pose proof (digit_val_bound c Ed). lia.
    + destruct (Ascii.eqb c ","); [now apply IH|discriminate].
Qed.

(** [float]'s [number] on a numeral with its commas dropped, with and
    without a fraction. *)
Lemma number_numeral (i f : string) (n d : Z) :
  numeral_value i = Some n -> digits_only f = true ->
  numeral_digits f n = Some d ->
  exists c r,
    cleaned i = String c r /\ Str.is_digit c = true
    /\ spaceless (cleaned i) = true
    /\ Float.number (cleaned i ++ String "." f)
       = Some (d, Z.of_nat (String.length f), "")
    /\ Float.number (cleaned i) = Some (n, 0, "").
Proof.
  unfold numeral_value. destruct (has_digit i) eqn:Eh; [|discriminate].
  intros Hn Hf Hd.
  destruct (digitpart_integer i 0 n (String "." f) Eh Hn)
    as (c & r & k & E1 & E2 & E3); [right; now eexists|].
  destruct (digitpart_integer i 0 n "" Eh Hn)
    as (c' & r' & k' & _ & _ & E4); [now left|].
  rewrite append_empty_r in E4.
  exists c, r. split; [exact E1|]. split; [exact E2|]. split; [|split].
  - apply digits_only_spaceless. now apply (numeral_cleaned i 0 n).
  - unfold Float.number. rewrite E3.
    destruct f as [|a f']; cbn [Float.digitpart].
    + injection Hd as <-. reflexivity.
    + cbn [digits_only] in Hf. apply andb_true_iff in Hf as [Ha Hf].
      cbn [numeral_digits] in Hd. rewrite Ha in Hd |- *.
      pose proof (digits_tail_fraction f' Hf _ 1 d "" Hd (or_introl eq_refl))
        as Ht.
      rewrite append_empty_r in Ht. rewrite Ht. cbn [String.length].
      rewrite Nat2Z.inj_succ. do 3 f_equal. lia.
  - unfold Float.number. now rewrite E4.
Qed.

Lemma py_int_of_decimal_fraction (neg : bool) (d k : Z) :
  0 <= d < 2 ^ 53 -> 0 <= k ->
  py_int (Float.of_decimal neg d (0 - k))
  = Ok (if neg then - (d / 10 ^ k) else d / 10 ^ k).
Proof.
  intros Hd Hk. unfold Float.of_decimal.
  destruct (Z.leb_spec 0 (0 - k)) as [H|H].
  - assert (k = 0) as -> by lia. cbn [Z.sub Z.opp Z.add].
    rewrite Z.pow_0_r, Z.mul_1_r. now apply py_int_round_rat.
  - replace (- (0 - k)) with k by lia. apply py_int_round_rat; [exact Hd|].
    apply Z.pow_pos_nonneg; lia.
Qed.

Lemma clean_number_reads (s : string) (f : pyfloat) (z : Z) :
  s <> "" -> Float.of_string (cleaned s) = Some f -> py_int f = Ok z ->
  clean_number (VStr s) = ([], Ok (VInt z)).
Proof.
  intros Hs Hf Hz. destruct s as [|c r]; [now elim Hs|].
  unfold clean_number, clean_number_try, py_float.
  fold (cleaned (String c r)). cbn [isna eq_empty is_none Str.is_empty orb].
  rewrite Hf. cbn [res_bind]. now rewrite Hz.
Qed.

Lemma cleaned_sign (neg : bool) : cleaned (sign_text neg) = sign_text neg.
Proof. now destruct neg. Qed.

Lemma signed_nonempty (neg : bool) (i t : string) :
  has_digit i = true -> sign_text neg ++ i ++ t <> "".
Proof. destruct neg; [discriminate|]. destruct i; discriminate. Qed.

(** [clean_number] on a signed numeral with a fraction: the value,
    truncated toward zero, which is the integer part with its sign. *)
Lemma clean_number_fraction (neg : bool) (i f : string) (n d : Z) :
  numeral_value i = Some n -> digits_only f = true ->
  numeral_digits f n = Some d -> d < 2 ^ 53 ->
  let k := Z.of_nat (String.length f) in
  let v := if neg then - d else d in
  clean_number (VStr (sign_text neg ++ i ++ String "." f))
  = ([], Ok (VInt (Z.quot v (10 ^ k))))
  /\ Z.quot v (10 ^ k) = (if neg then - n else n).
Proof.
  intros Hn Hf Hd Hlt k v.
  assert (Hh : has_digit i = true).
  { unfold numeral_value in Hn. now destruct (has_digit i). }
  assert (Hn0 : 0 <= n).
  { unfold numeral_value in Hn. rewrite Hh in Hn.
    now apply (numeral_digits_nonneg i 0 n). }
  assert (Hd0 : 0 <= d) by now apply (numeral_digits_nonneg f n d).
  assert (Hp : 0 < 10 ^ k) by (apply Z.pow_pos_nonneg; lia).
  pose proof (fraction_bounds f Hf n d Hn0 Hd) as Hb. fold k in Hb.
  assert (Hq : d / 10 ^ k = n).
  { symmetry. apply (Z.div_unique d (10 ^ k) n (d - 10 ^ k * n)); lia. }
  assert (Hv : Z.quot v (10 ^ k) = (if neg then - (d / 10 ^ k)
                                    else d / 10 ^ k)).
  { unfold v. destruct neg.
    - rewrite Z.quot_opp_l by lia. now rewrite Z.quot_div_nonneg by lia.
    - now rewrite Z.quot_div_nonneg by lia. }
  split; [|now rewrite Hv, Hq].
  destruct (number_numeral i f n d Hn Hf Hd)
    as (c & r & E1 & E2 & E3 & E4 & _).
  apply (clean_number_reads _ (Float.of_decimal neg d (0 - k)));
    [now apply signed_nonempty| |].
  - rewrite !cleaned_app, cleaned_sign.
    change (cleaned (String "." f)) with (String "." (cleaned f)).
    rewrite (cleaned_digits f Hf). rewrite E1 in *.
    apply (of_string_number neg c (r ++ String "." f) d k E2); [|exact E4].
    change (String c (r ++ String "." f)) with (String c r ++ String "." f).
    rewrite spaceless_app, E3. cbn [spaceless andb].
    now rewrite (digits_only_spaceless f Hf).
  - rewrite Hv. apply py_int_of_decimal_fraction; lia.
Qed.

(** The same without a fraction. *)
Lemma clean_number_signed (neg : bool) (i : string) (n : Z) :
  numeral_value i = Some n -> n < 2 ^ 53 ->
  clean_number (VStr (sign_text neg ++ i))
  = ([], Ok (VInt (if neg then - n else n))).
Proof.
  intros Hn Hlt.
  assert (Hh : has_digit i = true).
  { unfold numeral_value in Hn. now destruct (has_digit i). }
  assert (Hn0 : 0 <= n).
  { unfold numeral_value in Hn. rewrite Hh in Hn.
    now apply (numeral_digits_nonneg i 0 n). }
  destruct (number_numeral i "" n n Hn eq_refl eq_refl)
    as (c & r & E1 & E2 & E3 & _ & E4).
  apply (clean_number_reads _ (Float.of_decimal neg n (0 - 0))).
  - pose proof (signed_nonempty neg i "" Hh) as H.
    now rewrite append_empty_r in H.
  - rewrite cleaned_app, cleaned_sign. rewrite E1 in *.
    now apply (of_string_number neg c r n 0 E2).
  - rewrite py_int_of_decimal_fraction by lia.
    now rewrite Z.pow_0_r, Z.div_1_r.
Qed.

Example long_fraction_rounds_up :
  clean_number (VStr "0.99999999999999999") = ([], Ok (VInt 1))
  /\ clean_number (VStr "4,503,599,627,370,497.5")
     = ([], Ok (VInt 4503599627370498)).
Proof. split; vm_compute; reflexivity. Qed.

(** C6, as stated, fails: the numeral goes through a binary64 float,
    which holds 53 significant bits. *)
Lemma clean_number_rounds_large_numeral :
  ~ (forall (s : string) (n : Z),
       numeral_value s = Some n ->
       exists l, clean_number (VStr s) = (l, Ok (VInt n))).
Proof.
  intros H.
  destruct (H "9,007,199,254,740,993" 9007199254740993 eq_refl) as [l E].
  vm_compute in E. discriminate E.
Qed.

(** C6, amended. A numeral with separating commas whose value is at most
    [2^53] is cleaned to that value.  Written with a sign or a fraction,
    a numeral whose digits, read together as one integer, stay below
    [2^53] is cleaned to its value truncated toward zero, which is its
    integer part with the sign.  An [int] is returned as it is and a
    finite [float] is truncated toward zero; text that [float] rejects
    gives [None], without an exception. *)
Theorem clean_number_numeral_exact :
  (forall (s : string) (n : Z),
     numeral_value s = Some n -> n <= 2 ^ 53 ->
     clean_number (VStr s) = ([], Ok (VInt n)))
  /\ (forall (neg : bool) (i f : string) (n d : Z),
        numeral_value i = Some n -> digits_only f = true ->
        numeral_digits f n = Some d -> d < 2 ^ 53 ->
        let k := Z.of_nat (String.length f) in
        let v := if neg then - d else d in
        clean_number (VStr (sign_text neg ++ i ++ String "." f))
        = ([], Ok (VInt (Z.quot v (10 ^ k))))
        /\ Z.quot v (10 ^ k) = (if neg then - n else n))
  /\ (forall (neg : bool) (i : string) (n : Z),
        numeral_value i = Some n -> n < 2 ^ 53 ->
        clean_number (VStr (sign_text neg ++ i))
        = ([], Ok (VInt (if neg then - n else n))))
  /\ (forall z : Z, clean_number (VInt z) = ([], Ok (VInt z)))
  /\ (forall (neg : bool) (m e : Z),
        0 <= m ->
        exists q,
          clean_number (VFloat (FFin neg m e))
          = ([], Ok (VInt (if neg then - q else q)))
          /\ (0 <= e -> q = m * 2 ^ e)
          /\ (e < 0 -> q * 2 ^ (- e) <= m < (q + 1) * 2 ^ (- e)))
  /\ (forall s : string,
        Float.of_string (cleaned s) = None
        \/ Float.of_string (cleaned s) = Some FNan ->
        snd (clean_number (VStr s)) = Ok VNone).
Proof.
  split; [exact clean_number_numeral|].
  split; [exact clean_number_fraction|].
  split; [exact clean_number_signed|]. split; [reflexivity|]. split.
  - intros neg m e Hm. exists (Z.shiftl m e). split; [reflexivity|]. split.
    + intros He. now apply Z.shiftl_mul_pow2.
    + intros He. rewrite Z.shiftl_div_pow2 by lia.
      assert (Hp : 0 < 2 ^ (- e)) by (apply Z.pow_pos_nonneg; lia).
      pose proof (Z.mul_div_le m _ Hp).
      pose proof (Z.mul_succ_div_gt m _ Hp). lia.
  - intros s H. unfold clean_number.
    destruct (isna (VStr s) || eq_empty (VStr s) || is_none (VStr s));
      [reflexivity|].
    unfold clean_number_try, py_float. fold (cleaned s).
    destruct H as [H|H]; now rewrite H.
Qed.

Lemma clean_number_numeral_exact_witness :
  clean_number (VStr "1,234,567") = ([], Ok (VInt 1234567))
  /\ clean_number (VStr "1,234.56") = ([], Ok (VInt 1234))
  /\ clean_number (VStr "-1,234.56") = ([], Ok (VInt (- 1234)))
  /\ clean_number (VStr "-1,234") = ([], Ok (VInt (- 1234))).
Proof.
  destruct clean_number_numeral_exact as (H1 & H2 & H3 & _).
  split; [apply (H1 "1,234,567" 1234567); [reflexivity|lia]|].
  split; [|split].
  - exact (proj1 (H2 false "1,234" "56" 1234 123456
                    eq_refl eq_refl eq_refl eq_refl)).
  - exact (proj1 (H2 true "1,234" "56" 1234 123456
                    eq_refl eq_refl eq_refl eq_refl)).
  - exact (H3 true "1,234" 1234 eq_refl eq_refl).
Defined.

(** ** Traces *)

Lemma inserts_app (l1 l2 : list event) :
  inserts (l1 ++ l2) = (inserts l1 ++ inserts l2)%list.
Proof.
  induction l1 as [|e l1 IH]; simpl; [reflexivity|].
  destruct e; simpl; now rewrite ?IH.
Qed.

Lemma inserts_warnings (l : list event) :
  forallb is_warning l = true -> inserts l = [].
Proof.
  induction l as [|e l IH]; simpl; [reflexivity|].
  destruct e; simpl; try discriminate. exact IH.
Qed.

Lemma files_written_app (l1 l2 : list event) :
  files_written (l1 ++ l2) = (files_written l1 ++ files_written l2)%list.
Proof.
  induction l1 as [|e l1 IH]; simpl; [reflexivity|].
  destruct e; simpl; now rewrite ?IH.
Qed.

(** ** Mappings, continued *)

Lemma dict_get_set_same (k : string) (v : value) (d : dict) :
  dict_get k (dict_set k v d) = Some v.
Proof.
  induction d as [|[k' v'] d IH]; simpl.
  - now rewrite String.eqb_refl.
  - destruct (String.eqb_spec k k') as [<-|Hk]; simpl.
    + now rewrite String.eqb_refl.
    + apply String.eqb_neq in Hk. now rewrite Hk.
Qed.

Lemma dict_get_set_other (k k' : string) (v : value) (d : dict) :
  k <> k' -> dict_get k (dict_set k' v d) = dict_get k d.
Proof.
  intros Hk. induction d as [|[k0 v0] d IH]; simpl.
  - apply String.eqb_neq in Hk. now rewrite Hk.
  - destruct (String.eqb_spec k' k0) as [<-|Hk0]; simpl.
    + apply String.eqb_neq in Hk. now rewrite Hk.
    + now rewrite IH.
Qed.

Lemma dict_set_fresh (k : string) (v : value) (d : dict) :
  ~ In k (map fst d) -> dict_set k v d = (d ++ [(k, v)])%list.
Proof.
  induction d as [|[k' v'] d IH]; simpl; [reflexivity|].
  intros H. destruct (String.eqb_spec k k') as [->|Hk].
  - elim H. now left.
  - rewrite IH; [reflexivity|]. intros Hin. apply H. now right.
Qed.

(** A row with distinct column labels is its own [to_dict]. *)
Lemma to_dict_distinct (row : dict) :
  NoDup (map fst row) -> to_dict row = row.
Proof.
  unfold to_dict.
  assert (G : forall acc,
             NoDup (map fst (acc ++ row)) ->
             fold_left (fun d kv => dict_set (fst kv) (snd kv) d) row acc
             = (acc ++ row)%list).
  { induction row as [|[k v] row IH]; intros acc Hnd; simpl.
    - now rewrite app_nil_r.
    - rewrite dict_set_fresh.
      + rewrite IH; rewrite <- app_assoc; [reflexivity|exact Hnd].
      + rewrite map_app in Hnd. simpl in Hnd.
        apply NoDup_remove_2 in Hnd. intros Hin. apply Hnd.
        apply in_or_app. now left. }
  intros Hnd. now apply (G []).
Qed.

(** ** What the record builder logs *)

Section Logs.

Variable float_repr : pyfloat -> string.

Lemma clean_number_logs (v : value) :
  forallb is_warning (fst (clean_number v)) = true.
Proof.
  unfold clean_number.
  destruct (isna v || eq_empty v || is_none v); [reflexivity|].
  destruct (clean_number_try v) as [a|[]]; reflexivity.
Qed.

Lemma clean_value_logs (v : value) (f : string) :
  forallb is_warning (fst (clean_value float_repr v f)) = true.
Proof.
  unfold clean_value.
  destruct (isna v || eq_empty v || is_none v); [reflexivity|].
  destruct (String.eqb f "youtube_views"); [apply clean_number_logs|].
  destruct v; reflexivity.
Qed.

Lemma field_value_logs (row : dict) (f : string) :
  forallb is_warning (fst (field_value float_repr row f)) = true.
Proof.
  unfold field_value. destruct (series_get row f); [|reflexivity].
  destruct (String.eqb f "album_date"); [reflexivity|].
  apply clean_value_logs.
Qed.

Lemma lbind_logs {A B} (c : logged A) (k : A -> logged B) :
  forallb is_warning (fst c) = true ->
  (forall a, forallb is_warning (fst (k a)) = true) ->
  forallb is_warning (fst (lbind c k)) = true.
Proof.
  destruct c as [l [a|e]]; simpl; intros Hc Hk; [|exact Hc].
  specialize (Hk a). destruct (k a) as [l' r]. simpl in *.
  rewrite forallb_app. now rewrite Hc, Hk.
Qed.

Lemma build_literal_logs (row : dict) (fs : list string) :
  forallb is_warning (fst (build_literal float_repr row fs)) = true.
Proof.
  induction fs as [|f fs IH]; simpl; [reflexivity|].
  apply lbind_logs; [apply field_value_logs|]. intros v.
  apply lbind_logs; [exact IH|]. reflexivity.
Qed.

Lemma prepare_song_data_logs (row : dict) :
  forallb is_warning (fst (prepare_song_data float_repr row)) = true.
Proof.
  unfold prepare_song_data.
  apply lbind_logs; [apply build_literal_logs|]. reflexivity.
Qed.

End Logs.

(** ** The failure recorder *)



(** ** The batch loader *)

Lemma failed_record_message (row : dict) (e : exn) (t : datetime) :
  dict_get "error_message" (failed_record row e t) = Some (VStr (str_exn e)).
Proof.
  unfold failed_record.
  rewrite dict_get_set_other by discriminate. apply dict_get_set_same.
Qed.

Lemma failed_record_columns (row : dict) (e : exn) (t : datetime)
    (c : string) :
  c <> "error_message" -> c <> "error_time" ->
  dict_get c (failed_record row e t) = dict_get c (to_dict row).
Proof.
  intros H1 H2. unfold failed_record.
  now rewrite !dict_get_set_other by assumption.
Qed.

Section Loader.

Variable float_repr : pyfloat -> string.
Variable W : Type.
Variable sink_insert : W -> dict -> W * option string.
Variable clock : nat -> datetime.

(** The handler, once [song_data] is bound: the row is recorded and the
    loop goes on. *)
Lemma row_handler_bound (index : nat) (row : dict) (e : exn)
    (st : state W) (loc : locals) (sd : dict) :
  song_data loc = Some sd ->
  row_handler clock index row e st loc
  = ({| sink := sink st; ticks := S (ticks st);
        failed_records :=
          (failed_records st ++ [failed_record row e (clock (ticks st))])%list;
        trace := (trace st ++ [LogRowError (S index) (str_exn e);
                               LogBadData sd])%list |},
     {| successful_imports := successful_imports loc;
        failed_imports := S (failed_imports loc);
        song_data := Some sd |},
     Ok tt).
Proof.
  intros H. unfold row_handler. rewrite H. unfold now, emit. cbn.
  rewrite <- app_assoc. reflexivity.
Qed.

(** A row the sink accepts. *)
Lemma import_row_accepted (total index : nat) (row : dict)
    (st : state W) (loc : locals) (l : list event) (d : dict)
    (title : value) (w : W) :
  prepare_song_data float_repr row = (l, Ok d) ->
  dict_get "title" d = Some title ->
  sink_insert (sink st) d = (w, None) ->
  import_row float_repr sink_insert clock total index row st loc
  = ({| sink := w; ticks := ticks st;
        failed_records := failed_records st;
        trace := (trace st ++ l ++ [LogTrying (S index) total title;
                                    SinkInsert d;
                                    LogImported title])%list |},
     {| successful_imports := S (successful_imports loc);
        failed_imports := failed_imports loc;
        song_data := Some d |},
     Ok tt).
Proof.
  intros Hp Ht Hs. unfold import_row. rewrite Hp, Ht.
  unfold emit. cbn. rewrite Hs. unfold row_handler, now, emit. cbn.
  rewrite <- !app_assoc. reflexivity.
Qed.

(** A row the sink rejects. *)
Lemma import_row_rejected (total index : nat) (row : dict)
    (st : state W) (loc : locals) (l : list event) (d : dict)
    (title : value) (w : W) (text : string) :
  prepare_song_data float_repr row = (l, Ok d) ->
  dict_get "title" d = Some title ->
  sink_insert (sink st) d = (w, Some text) ->
  import_row float_repr sink_insert clock total index row st loc
  = ({| sink := w; ticks := S (ticks st);
        failed_records :=
          (failed_records st
           ++ [failed_record row (SinkError text) (clock (ticks st))])%list;
        trace := (trace st ++ l ++ [LogTrying (S index) total title;
                                    SinkInsert d;
                                    LogRowError (S index) text;
                                    LogBadData d])%list |},
     {| successful_imports := successful_imports loc;
        failed_imports := S (failed_imports loc);
        song_data := Some d |},
     Ok tt).
Proof.
  intros Hp Ht Hs. unfold import_row. rewrite Hp, Ht.
  unfold emit. cbn. rewrite Hs. unfold row_handler, now, emit. cbn.
  rewrite <- !app_assoc. reflexivity.
Qed.

(** A row whose record has no title. *)
Lemma import_row_untitled (total index : nat) (row : dict)
    (st : state W) (loc : locals) (l : list event) (d : dict) :
  prepare_song_data float_repr row = (l, Ok d) ->
  dict_get "title" d = None ->
  import_row float_repr sink_insert clock total index row st loc
  = ({| sink := sink st; ticks := S (ticks st);
        failed_records :=
          (failed_records st
           ++ [failed_record row (KeyError "title") (clock (ticks st))])%list;
        trace := (trace st ++ l ++ [LogRowError (S index) "'title'";
                                    LogBadData d])%list |},
     {| successful_imports := successful_imports loc;
        failed_imports := S (failed_imports loc);
        song_data := Some d |},
     Ok tt).
Proof.
  intros Hp Ht. unfold import_row. rewrite Hp, Ht.
  unfold row_handler, now, emit. cbn. rewrite <- !app_assoc. reflexivity.
Qed.

Lemma import_loop_app (total : nat) (pre post : list dict) :
  forall (index : nat) (st : state W) (loc : locals),
    import_loop float_repr sink_insert clock total index (pre ++ post) st loc
    = match import_loop float_repr sink_insert clock total index pre st loc with
      | (st', loc', Ok _) =>
          import_loop float_repr sink_insert clock total
            (index + List.length pre) post st' loc'
      | (st', loc', Raise e) => (st', loc', Raise e)
      end.
Proof.
  induction pre as [|row pre IH]; intros index st loc; simpl.
  - now rewrite Nat.add_0_r.
  - destruct (import_row float_repr sink_insert clock total index row st loc)
      as [[st' loc'] [[]|e]]; [|reflexivity].
    rewrite IH. now rewrite Nat.add_succ_r.
Qed.

(** Rows that all reach the sink and are accepted. *)
Lemma import_loop_accepts (total : nat) (rows : list dict) :
  forall (index : nat) (st : state W) (loc : locals) (w : W),
    sink_accepts float_repr sink_insert (sink st) rows = Some w ->
    exists st' loc',
      import_loop float_repr sink_insert clock total index rows st loc
      = (st', loc', Ok tt)
      /\ sink st' = w
      /\ ticks st' = ticks st
      /\ failed_records st' = failed_records st
      /\ inserts (trace st')
         = (inserts (trace st) ++ map (payload float_repr) rows)%list
      /\ successful_imports loc'
         = (successful_imports loc + List.length rows)%nat
      /\ failed_imports loc' = failed_imports loc.
Proof.
  induction rows as [|row rows IH]; intros index st loc w; simpl.
  - intros [= <-]. exists st, loc. rewrite app_nil_r, Nat.add_0_r.
    repeat split; reflexivity.
  - pose proof (prepare_song_data_logs float_repr row) as Hl.
    unfold payload.
    destruct (prepare_song_data float_repr row) as [l [d|e]] eqn:Hp;
      [|discriminate].
    destruct (dict_get "title" d) as [title|] eqn:Ht; [|discriminate].
    destruct (sink_insert (sink st) d) as [w' [text|]] eqn:Hs;
      [discriminate|].
    intros Hacc. fold import_row.
    rewrite (import_row_accepted total index row st loc l d title w' Hp Ht Hs).
    edestruct IH as (st' & loc' & E & H1 & H2 & H3 & H4 & H5 & H6);
      [|exists st', loc'; split; [exact E|]]; [exact Hacc|].
    cbn in H2, H3, H4, H5, H6. repeat split; try assumption.
    + rewrite H4, !inserts_app, (inserts_warnings l Hl). cbn.
      now rewrite <- app_assoc.
    + rewrite H5. lia.
Qed.

End Loader.



(** C1, as stated, fails: the message kept is the text of the exception,
    and an exception may have an empty text. *)
Lemma rejected_row_empty_message :
  ~ (forall (pre post : list dict) (row : dict) (st : state nat)
            (text : string) (l : list event) (d : dict) (title : value)
            (w1 w2 w3 : nat),
       sink_accepts Sample.float_repr (Sample.reject_nth 1 "") (sink st) pre
       = Some w1 ->
       prepare_song_data Sample.float_repr row = (l, Ok d) ->
       dict_get "title" d = Some title ->
       Sample.reject_nth 1 "" w1 d = (w2, Some text) ->
       sink_accepts Sample.float_repr (Sample.reject_nth 1 "") w2 post
       = Some w3 ->
       failed_records st = [] ->
       exists fr msg,
         failed_records
           (fst (fst (import_songs Sample.float_repr (Sample.reject_nth 1 "")
                        Sample.clock (pre ++ row :: post) st)))
         = [fr]
         /\ dict_get "error_message" fr = Some (VStr msg)
         /\ msg <> "").
Proof.
  intros H.
  destruct (H [Sample.row_a] [Sample.row_c] Sample.row_b (Sample.start 0%nat)
              "" [] _ (VStr "B") 1%nat 2%nat 3%nat
              eq_refl eq_refl eq_refl eq_refl eq_refl eq_refl)
    as (fr & msg & E & G & N).
  vm_compute in E. injection E as <-. vm_compute in G.
  injection G as <-. now apply N.
Qed.

(** C1, amended. When every row but one reaches the sink and is
    accepted, and that one row is rejected, [import_songs] hands all the
    rows to the sink in source order, counts one failure and all the other
    rows as successes, and keeps one failed record: the row's columns,
    unchanged but for the two diagnostic keys, the text of the exception
    as [error_message] and the time of capture. *)
Theorem rejected_row_is_isolated :
  forall (float_repr : pyfloat -> string) (W : Type)
         (sink_insert : W -> dict -> W * option string)
         (clock : nat -> datetime)
         (pre post : list dict) (row : dict) (st : state W)
         (text : string) (l : list event) (d : dict) (title : value)
         (w1 w2 w3 : W),
    sink_accepts float_repr sink_insert (sink st) pre = Some w1 ->
    prepare_song_data float_repr row = (l, Ok d) ->
    dict_get "title" d = Some title ->
    sink_insert w1 d = (w2, Some text) ->
    sink_accepts float_repr sink_insert w2 post = Some w3 ->
    failed_records st = [] ->
    let df := (pre ++ row :: post)%list in
    let fr := failed_record row (SinkError text) (clock (ticks st)) in
    exists st' loc r,
      import_songs float_repr sink_insert clock df st = (st', loc, r)
      /\ inserts (trace st')
         = (inserts (trace st) ++ map (payload float_repr) df)%list
      /\ successful_imports loc = (List.length df - 1)%nat
      /\ failed_imports loc = 1%nat
      /\ failed_records st' = [fr]
      /\ dict_get "error_message" fr = Some (VStr text)
      /\ (forall c, c <> "error_message" -> c <> "error_time" ->
            dict_get c fr = dict_get c (to_dict row))
      /\ (NoDup (map fst row) -> to_dict row = row)
      /\ r = match json_dump_error [fr] with
             | Some e => Raise e
             | None => Ok tt
             end.
Proof.
  intros float_repr W sink_insert clock pre post row st text l d title
    w1 w2 w3 Hpre Hp Ht Hs Hpost Hf df fr.
  remember (List.length df) as total eqn:Etot.
  set (loc0 := {| successful_imports := 0; failed_imports := 0;
                  song_data := None |}).
  destruct (import_loop_accepts float_repr W sink_insert clock
              total pre 0 st loc0 w1 Hpre)
    as (st1 & loc1 & E1 & S1 & T1 & F1 & I1 & C1 & D1).
  rewrite <- S1 in Hs.
  pose proof (import_row_rejected float_repr W sink_insert clock
                total (0 + List.length pre) row st1 loc1 l d
                title w2 text Hp Ht Hs) as E2.
  set (st2 := {| sink := w2; ticks := S (ticks st1);
                 failed_records :=
                   (failed_records st1
                    ++ [failed_record row (SinkError text)
                          (clock (ticks st1))])%list;
                 trace := (trace st1 ++ l
                           ++ [LogTrying (S (0 + List.length pre))
                                 total title;
                               SinkInsert d;
                               LogRowError (S (0 + List.length pre)) text;
                               LogBadData d])%list |}) in *.
  set (loc2 := {| successful_imports := successful_imports loc1;
                  failed_imports := S (failed_imports loc1);
                  song_data := Some d |}) in *.
  destruct (import_loop_accepts float_repr W sink_insert clock
              total post (S (0 + List.length pre)) st2 loc2 w3
              Hpost)
    as (st3 & loc3 & E3 & S3 & T3 & F3 & I3 & C3 & D3).
  assert (EL : import_loop float_repr sink_insert clock total 0
                 df st loc0 = (st3, loc3, Ok tt)).
  { unfold df. rewrite import_loop_app, E1. cbn [import_loop].
    rewrite E2. exact E3. }
  assert (F3' : failed_records st3 = [fr]).
  { rewrite F3. unfold st2. cbn [failed_records]. rewrite F1, Hf, T1.
    reflexivity. }
  assert (Hl : inserts l = []).
  { apply inserts_warnings.
    pose proof (prepare_song_data_logs float_repr row) as G.
    now rewrite Hp in G. }
  assert (I3' : inserts (trace st3)
                = (inserts (trace st) ++ map (payload float_repr) df)%list).
  { rewrite I3. unfold st2. cbn [trace]. rewrite !inserts_app, I1, Hl.
    unfold df. rewrite map_app. cbn [map inserts app].
    assert (Hpay : payload float_repr row = d)
      by (unfold payload; now rewrite Hp).
    rewrite Hpay, <- !app_assoc. reflexivity. }
  assert (C3' : successful_imports loc3 = (total - 1)%nat).
  { rewrite Etot, C3. unfold loc2. cbn [successful_imports]. rewrite C1.
    unfold df, loc0. rewrite length_app. cbn. lia. }
  assert (D3' : failed_imports loc3 = 1%nat).
  { rewrite D3. unfold loc2. cbn [failed_imports]. now rewrite D1. }
  unfold import_songs. fold loc0. rewrite <- Etot, EL.
  unfold save_failed_records. rewrite F3'.
  destruct (json_dump_error [fr]) as [e|] eqn:J.
  - eexists; eexists; eexists. split; [reflexivity|].
    unfold now, emit. cbn [trace failed_records fst snd].
    rewrite !inserts_app. cbn [inserts]. rewrite !app_nil_r.
    repeat split; try assumption.
    + apply failed_record_message.
    + intros c. apply failed_record_columns.
    + apply to_dict_distinct.
  - eexists; eexists; eexists. split; [reflexivity|].
    unfold now, emit. cbn [trace failed_records fst snd].
    rewrite !inserts_app. cbn [inserts]. rewrite !app_nil_r.
    repeat split; try assumption.
    + apply failed_record_message.
    + intros c. apply failed_record_columns.
    + apply to_dict_distinct.
Qed.

Lemma rejected_row_is_isolated_witness :
  exists st' loc,
    import_songs Sample.float_repr (Sample.reject_nth 1 "timeout")
      Sample.clock [Sample.row_a; Sample.row_b; Sample.row_c]
      (Sample.start 0%nat)
    = (st', loc, Ok tt)
    /\ successful_imports loc = 2%nat
    /\ failed_imports loc = 1%nat.
Proof.
  destruct (rejected_row_is_isolated Sample.float_repr nat
              (Sample.reject_nth 1 "timeout") Sample.clock
              [Sample.row_a] [Sample.row_c] Sample.row_b (Sample.start 0%nat)
              "timeout" [] _ (VStr "B") 1%nat 2%nat 3%nat
              eq_refl eq_refl eq_refl eq_refl eq_refl eq_refl)
    as (st' & loc & r & E & _ & Hs & Hf & _ & _ & _ & _ & Hr).
  exists st', loc. vm_compute in Hr. rewrite Hr in E.
  split; [exact E|]. split; [exact Hs|exact Hf].
Defined.

(** A row on which [prepare_song_data] raises, met after [song_data] was
    bound by an earlier row, is recorded and the loop goes on. *)
Lemma import_row_prepare_raises_bound :
  forall (float_repr : pyfloat -> string) (W : Type)
         (sink_insert : W -> dict -> W * option string)
         (clock : nat -> datetime) (total index : nat) (row : dict)
         (st : state W) (loc : locals) (l : list event) (e : exn)
         (sd : dict),
    prepare_song_data float_repr row = (l, Raise e) ->
    song_data loc = Some sd ->
    import_row float_repr sink_insert clock total index row st loc
    = ({| sink := sink st; ticks := S (ticks st);
          failed_records :=
            (failed_records st
             ++ [failed_record row e (clock (ticks st))])%list;
          trace := (trace st ++ l ++ [LogRowError (S index) (str_exn e);
                                      LogBadData sd])%list |},
       {| successful_imports := successful_imports loc;
          failed_imports := S (failed_imports loc);
          song_data := Some sd |},
       Ok tt).
Proof.
  intros float_repr W sink_insert clock total index row st loc l e sd Hp Hb.
  unfold import_row. rewrite Hp.
  rewrite (row_handler_bound W clock index row e (emit l st) loc sd Hb).
  unfold emit. cbn. now rewrite <- !app_assoc.
Qed.

(** C2. When [prepare_song_data] raises on the first row, [song_data] is
    still unbound in the handler: formatting it raises
    [UnboundLocalError], which leaves the row's [try]; no failed record
    is appended, the failure counter stays at zero, no later row is
    attempted and [import_songs] raises. *)
Theorem first_row_failure_aborts_batch :
  forall (float_repr : pyfloat -> string) (W : Type)
         (sink_insert : W -> dict -> W * option string)
         (clock : nat -> datetime) (row : dict) (rest : list dict)
         (st : state W) (l : list event) (e : exn),
    prepare_song_data float_repr row = (l, Raise e) ->
    failed_records st = [] ->
    exists st' loc msg,
      import_songs float_repr sink_insert clock (row :: rest) st
      = (st', loc, Raise (UnboundLocalError msg))
      /\ failed_records st' = []
      /\ failed_imports loc = 0%nat
      /\ successful_imports loc = 0%nat
      /\ sink st' = sink st
      /\ trace st'
         = (trace st ++ l
            ++ [LogRowError 1 (str_exn e);
                LogImportError msg;
                LogNothingToSave;
                LogSummary (S (List.length rest)) 0 0])%list.
Proof.
  intros float_repr W sink_insert clock row rest st l e Hp Hf.
  unfold import_songs. cbn [import_loop List.length].
  unfold import_row. rewrite Hp. unfold row_handler. cbn [song_data].
  unfold save_failed_records, emit. cbn [failed_records trace sink ticks].
  rewrite Hf. eexists; eexists; eexists. split; [reflexivity|].
  cbn. rewrite <- !app_assoc. repeat split; assumption.
Qed.

Lemma first_row_failure_aborts_batch_witness :
  exists st' loc msg,
    import_songs Sample.float_repr Sample.accept_all Sample.clock
      [Sample.row_inf; Sample.row_b] (Sample.start tt)
    = (st', loc, Raise (UnboundLocalError msg))
    /\ failed_records st' = []
    /\ failed_imports loc = 0%nat.
Proof.
  destruct (first_row_failure_aborts_batch Sample.float_repr unit
              Sample.accept_all Sample.clock Sample.row_inf [Sample.row_b]
              (Sample.start tt) [] _ eq_refl eq_refl)
    as (st' & loc & msg & E & Hf & Hc & _).
  exists st', loc, msg. split; [exact E|]. split; [exact Hf|exact Hc].
Defined.

(** C3. [save_failed_records] runs on every way out of the loop, and the
    summary is the last thing logged whenever it returns; but when a
    failed record holds a value [json.dump] cannot encode, such as the
    [datetime.date] of [album_date], the exception is raised inside the
    [finally] clause and the summary is never logged. *)
Theorem summary_skipped_on_json_error :
  (forall (float_repr : pyfloat -> string) (W : Type)
          (sink_insert : W -> dict -> W * option string)
          (clock : nat -> datetime) (df : list dict) (st : state W),
      let run := import_songs float_repr sink_insert clock df st in
      let st' := fst (fst run) in
      let loc := snd (fst run) in
      (exists tr,
          trace st'
          = (tr ++ [LogSummary (List.length df) (successful_imports loc)
                      (failed_imports loc)])%list)
      \/ (exists e, json_dump_error (failed_records st') = Some e
                    /\ snd run = Raise e))
  /\ (let run := import_songs Sample.float_repr Sample.accept_all Sample.clock
                   [Sample.row_untitled; Sample.row_b] (Sample.start tt) in
      snd run = Raise (TypeError "Object of type date is not JSON serializable")
      /\ existsb is_summary (trace (fst (fst run))) = false
      /\ successful_imports (snd (fst run)) = 1%nat
      /\ failed_imports (snd (fst run)) = 1%nat
      /\ files_written (trace (fst (fst run)))
         = [ "failed_imports/failed_records_20241005_093001.csv";
             "failed_imports/failed_records_20241005_093001.json" ]).
Proof.
  split.
  - intros float_repr W sink_insert clock df st. cbv zeta.
    unfold import_songs.
    destruct (import_loop float_repr sink_insert clock (List.length df) 0 df
                st _) as [[st1 loc1] r].
    set (st2 := match r with
                | Ok _ => st1
                | Raise e => emit [LogImportError (str_exn e)] st1
                end).
    unfold save_failed_records.
    destruct (failed_records st2) as [|d l] eqn:E.
    + left. cbn. now eexists.
    + unfold now. destruct (json_dump_error (d :: l)) as [e|] eqn:J.
      * right. exists e. cbn. rewrite E. now split.
      * left. cbn. now eexists.
  - vm_compute. repeat split.
Qed.

(** ** Two runs end to end *)

(** Three rows the sink accepts: the view count ["2,000"] is inserted as
    the integer 2000, the row without a date has no [album_date] key,
    nothing is written and the summary reports three successes. *)
Example three_rows_all_succeed :
  let run := import_songs Sample.float_repr Sample.accept_all Sample.clock
               [Sample.row_a; Sample.row_b; Sample.row_c] (Sample.start tt) in
  snd run = Ok tt
  /\ map (dict_get "youtube_views") (inserts (trace (fst (fst run))))
     = [Some (VInt 1500); Some (VInt 2000); Some (VInt 7)]
  /\ map (dict_get "album_date") (inserts (trace (fst (fst run))))
     = [Some (VStr "2024-01-02"); Some (VStr "2023-05-06"); None]
  /\ files_written (trace (fst (fst run))) = []
  /\ last (trace (fst (fst run))) LogNothingToSave = LogSummary 3 3 0.
Proof. vm_compute. repeat split. Qed.

(** The sink rejects the second of three rows: one failed record with
    the row's raw cells, the message and the time, and both files. *)
Example second_row_rejected :
  let run := import_songs Sample.float_repr
               (Sample.reject_nth 1 "duplicate key") Sample.clock
               [Sample.row_a; Sample.row_b; Sample.row_c]
               (Sample.start 0%nat) in
  snd run = Ok tt
  /\ failed_records (fst (fst run))
     = [ (Sample.row_b
          ++ [ ("error_message", VStr "duplicate key");
               ("error_time", VStr "2024-10-05 09:30:00") ])%list ]
  /\ files_written (trace (fst (fst run)))
     = [ "failed_imports/failed_records_20241005_093001.csv";
         "failed_imports/failed_records_20241005_093001.json" ]
  /\ last (trace (fst (fst run))) LogNothingToSave = LogSummary 3 2 1.
Proof. vm_compute. repeat split. Qed.

(** * More of the program *)

(** ** The value normalizer, case by case *)

(** [clean_number] on a non-empty string, by what [float] reads. *)
Lemma clean_number_str (s : string) :
  s <> "" ->
  clean_number (VStr s)
  = match Float.of_string (cleaned s) with
    | Some (FFin neg m e) =>
        ([], Ok (VInt (if neg then - Z.shiftl m e else Z.shiftl m e)))
    | Some (FInf _) =>
        ([], Raise (OverflowError "cannot convert float infinity to integer"))
    | Some FNan | None => ([LogWarning (VStr s)], Ok VNone)
    end.
Proof.
  intros Hs. destruct s as [|c r]; [now elim Hs|].
  unfold clean_number, clean_number_try, py_float.
  fold (cleaned (String c r)). cbn [isna eq_empty is_none Str.is_empty orb].
  destruct (Float.of_string (cleaned (String c r))) as [[| |]|]; reflexivity.
Qed.

Lemma remove_char_app (x : ascii) (a b : string) :
  Str.remove_char x (a ++ b) = Str.remove_char x a ++ Str.remove_char x b.
Proof.
  induction a as [|c a IH]; simpl; [reflexivity|].
  destruct (Ascii.eqb c x); simpl; now rewrite IH.
Qed.

Lemma cleaned_separator (a b : string) (sep : ascii) :
  sep = ","%char \/ sep = " "%char ->
  cleaned (a ++ String sep b) = cleaned (a ++ b).
Proof.
  intros [-> | ->]; unfold cleaned; rewrite !remove_char_app; reflexivity.
Qed.

(** X1. [clean_number] has four outcomes and the cell decides which: it
    raises [OverflowError] exactly on a cell that reads as an infinity; it
    logs one warning and returns [None] exactly on a non-empty string
    that is no number or reads as a NaN; on every other cell it logs
    nothing and returns [None] or an [int]. *)
Theorem clean_number_outcomes :
  forall v : value,
    (is_infinite v = true
     /\ clean_number v
        = ([], Raise (OverflowError
                        "cannot convert float infinity to integer")))
    \/ (is_infinite v = false /\ unreadable v = true
        /\ clean_number v = ([LogWarning v], Ok VNone))
    \/ (is_infinite v = false /\ unreadable v = false
        /\ (clean_number v = ([], Ok VNone)
            \/ exists z, clean_number v = ([], Ok (VInt z)))).
Proof.
  intros [| | |b|z|f|s|y m d];
    try (right; right; repeat split; now left);
    try (right; right; repeat split; right; eexists; reflexivity).
  - destruct f as [|neg|neg m e].
    + right; right. repeat split. now left.
    + left. now split.
    + right; right. repeat split. right. eexists. reflexivity.
  - destruct s as [|c r]; [right; right; repeat split; now left|].
    rewrite clean_number_str by discriminate.
    unfold is_infinite, unreadable. cbn [Str.is_empty negb andb].
    destruct (Float.of_string (cleaned (String c r))) as [[|neg|neg m e]|].
    + right; left. now repeat split.
    + left. now split.
    + right; right. repeat split. right. eexists. reflexivity.
    + right; left. now repeat split.
Qed.

(** X2. Commas and spaces are dropped wherever they stand in the text:
    one more of them, at any place, changes neither the number
    [clean_number] returns nor the exception it raises. *)
Theorem clean_number_separators :
  forall (a b : string) (sep : ascii),
    sep = ","%char \/ sep = " "%char ->
    snd (clean_number (VStr (a ++ String sep b)))
    = snd (clean_number (VStr (a ++ b))).
Proof.
  intros a b sep Hsep.
  assert (Hl : a ++ String sep b <> "") by (destruct a; discriminate).
  rewrite (clean_number_str _ Hl), (cleaned_separator a b sep Hsep).
  destruct (a ++ b) as [|c r] eqn:E.
  - destruct a; [|discriminate E]. simpl in E. subst b. reflexivity.
  - rewrite clean_number_str by discriminate.
    destruct (Float.of_string (cleaned (String c r))) as [[| |]|];
      reflexivity.
Qed.

Lemma clean_number_separators_witness :
  snd (clean_number (VStr ("1" ++ String "," "234")))
  = snd (clean_number (VStr ("1" ++ "234"))).
Proof.
  apply (clean_number_separators "1" "234" ","). now left.
Defined.

(** ** The record builder, field by field *)

Lemma clean_number_raises (v : value) (l : list event) (e : exn) :
  clean_number v = (l, Raise e) ->
  is_infinite v = true
  /\ e = OverflowError "cannot convert float infinity to integer".
Proof.
  destruct v as [| | |b|z|f|s|y m d]; try discriminate.
  - destruct f; try discriminate. intros [= _ <-]. now split.
  - destruct s as [|c r]; [discriminate|].
    rewrite clean_number_str by discriminate. unfold is_infinite.
    destruct (Float.of_string (cleaned (String c r))) as [[| |]|];
      try discriminate.
    intros [= _ <-]. now split.
Qed.

Lemma clean_number_returns (v : value) :
  is_infinite v = false -> exists l r, clean_number v = (l, Ok r).
Proof.
  destruct v as [| | |b|z|f|s|y m d]; intros H;
    try (eexists; eexists; reflexivity).
  - destruct f; try discriminate; eexists; eexists; reflexivity.
  - destruct s as [|c r]; [eexists; eexists; reflexivity|].
    rewrite clean_number_str by discriminate. unfold is_infinite in H.
    destruct (Float.of_string (cleaned (String c r))) as [[| |]|];
      try discriminate; eexists; eexists; reflexivity.
Qed.

Lemma clean_number_infinite (v : value) :
  is_infinite v = true ->
  clean_number v
  = ([], Raise (OverflowError "cannot convert float infinity to integer")).
Proof.
  destruct v as [| | |b|z|f|s|y m d]; try discriminate.
  - destruct f; try discriminate. reflexivity.
  - destruct s as [|c r]; [discriminate|].
    rewrite clean_number_str by discriminate. unfold is_infinite.
    destruct (Float.of_string (cleaned (String c r))) as [[| |]|];
      try discriminate.
    reflexivity.
Qed.

Lemma dict_get_In (k : string) (v : value) (d : dict) :
  dict_get k d = Some v -> In (k, v) d.
Proof.
  induction d as [|[k' v'] d IH]; simpl; [discriminate|].
  destruct (String.eqb_spec k k') as [<-|Hk].
  - intros [= <-]. now left.
  - intros H. right. now apply IH.
Qed.

Section Fields.

Variable float_repr : pyfloat -> string.

Lemma clean_value_views (v : value) :
  clean_value float_repr v "youtube_views" = clean_number v.
Proof.
  unfold clean_value, clean_number.
  destruct (isna v || eq_empty v || is_none v); reflexivity.
Qed.

Lemma clean_value_other (v : value) (f : string) :
  String.eqb f "youtube_views" = false ->
  exists r,
    clean_value float_repr v f = ([], Ok r)
    /\ (r = VNone \/ plain r = true)
    /\ (forall s, r = VStr s -> Str.strip s = s).
Proof.
  intros Hf. unfold clean_value. rewrite Hf.
  destruct (isna v || eq_empty v || is_none v) eqn:E.
  - exists VNone. repeat split; [now left|discriminate].
  - assert (Hs : forall t,
               exists r, lret (VStr (Str.strip t)) = ([], Ok r)
                 /\ (r = VNone \/ plain r = true)
                 /\ (forall s, r = VStr s -> Str.strip s = s)).
    { intros t. eexists. repeat split; [now right|].
      intros s [= <-]. apply strip_idem. }
    destruct v as [| | |b|z|g|s|y m d]; try apply Hs;
      try (eexists; repeat split; [now right|discriminate]).
    simpl in E. rewrite !orb_false_r in E. rewrite E.
    exists (VFloat g). repeat split; [|discriminate].
    right. simpl. now rewrite E.
Qed.

Lemma field_value_raises (row : dict) (f : string) (l : list event)
    (e : exn) :
  field_value float_repr row f = (l, Raise e) ->
  (dict_get f row = None /\ e = KeyError f)
  \/ (f = "youtube_views" /\ views_infinite row = true
      /\ e = OverflowError "cannot convert float infinity to integer").
Proof.
  unfold field_value, series_get, views_infinite.
  destruct (dict_get f row) as [v|] eqn:Ev; [|intros [= _ <-]; now left].
  destruct (String.eqb f "album_date"); [discriminate|].
  destruct (String.eqb_spec f "youtube_views") as [->|Hf].
  - rewrite clean_value_views, Ev. intros H.
    apply clean_number_raises in H as [Hi ->]. right. now repeat split.
  - apply String.eqb_neq in Hf.
    destruct (clean_value_other v f Hf) as (r & -> & _). discriminate.
Qed.

Lemma field_value_returns (row : dict) (f : string) :
  dict_get f row <> None ->
  (f = "youtube_views" -> views_infinite row = false) ->
  exists l r, field_value float_repr row f = (l, Ok r).
Proof.
  unfold field_value, series_get, views_infinite.
  destruct (dict_get f row) as [v|] eqn:Ev; [|intros H; now elim H].
  intros _ Hv.
  destruct (String.eqb f "album_date"); [eexists; eexists; reflexivity|].
  destruct (String.eqb_spec f "youtube_views") as [->|Hf].
  - rewrite clean_value_views. apply clean_number_returns.
    rewrite Ev in Hv. now apply Hv.
  - apply String.eqb_neq in Hf.
    destruct (clean_value_other v f Hf) as (r & -> & _). now eexists; eexists.
Qed.

(** What a field of the literal may hold. *)
Lemma field_value_plain (row : dict) (f : string) (l : list event)
    (r : value) :
  field_value float_repr row f = (l, Ok r) ->
  (r = VNone \/ plain r = true)
  /\ (f = "youtube_views" -> r = VNone \/ exists z, r = VInt z)
  /\ (f = "album_date" -> r = VNone \/ exists s, r = VStr s)
  /\ (f <> "album_date" -> forall s, r = VStr s -> Str.strip s = s).
Proof.
  unfold field_value, series_get.
  destruct (dict_get f row) as [v|] eqn:Ev; [|discriminate].
  destruct (String.eqb_spec f "album_date") as [->|Ha].
  - intros [= _ <-]. split; [|split; [discriminate|split]].
    + destruct (isna v); [now left|now right].
    + intros _. destruct (isna v); [now left|right; now eexists].
    + intros H. now elim H.
  - destruct (String.eqb_spec f "youtube_views") as [->|Hf].
    + rewrite clean_value_views. intros H.
      apply clean_number_shape in H as [->|[z ->]].
      * split; [now left|]. split; [intros _; now left|].
        split; [intros _; now left|]. intros _ s. discriminate.
      * split; [now right|]. split; [intros _; right; now exists z|].
        split; [discriminate|]. intros _ s. discriminate.
    + apply String.eqb_neq in Hf.
      destruct (clean_value_other v f Hf) as (r' & -> & Hp & Hs).
      intros [= _ <-]. split; [exact Hp|].
      split; [intros ->; discriminate|].
      split; [intros ->; now elim Ha|]. intros _. exact Hs.
Qed.

Lemma build_literal_raises (row : dict) (fs : list string)
    (l : list event) (e : exn) :
  build_literal float_repr row fs = (l, Raise e) ->
  exists f lv, In f fs /\ field_value float_repr row f = (lv, Raise e).
Proof.
  revert l. induction fs as [|f fs IH]; simpl; intros l; [discriminate|].
  destruct (field_value float_repr row f) as [l1 [v|e1]] eqn:Ef; simpl.
  - destruct (build_literal float_repr row fs) as [l2 [d|e2]] eqn:Eb; simpl;
      [discriminate|].
    intros [= _ <-]. destruct (IH l2 eq_refl) as (f' & lv & Hin & Hf).
    exists f', lv. split; [now right|exact Hf].
  - intros [= _ <-]. exists f, l1. split; [now left|exact Ef].
Qed.

Lemma build_literal_returns (row : dict) (fs : list string) :
  (forall f, In f fs ->
     exists l r, field_value float_repr row f = (l, Ok r)) ->
  exists l d, build_literal float_repr row fs = (l, Ok d).
Proof.
  induction fs as [|f fs IH]; simpl; intros H;
    [eexists; eexists; reflexivity|].
  destruct (H f (or_introl eq_refl)) as (l1 & r & ->).
  destruct IH as (l2 & d & ->); [intros; apply H; now right|].
  simpl. eexists; eexists; reflexivity.
Qed.

Lemma build_literal_agree (row row' : dict) (fs : list string) :
  (forall f, In f fs -> dict_get f row = dict_get f row') ->
  build_literal float_repr row fs = build_literal float_repr row' fs.
Proof.
  induction fs as [|f fs IH]; simpl; intros H; [reflexivity|].
  rewrite IH by (intros; apply H; now right).
  unfold field_value, series_get. now rewrite (H f (or_introl eq_refl)).
Qed.

(** An entry of the record is a field of the literal with its value. *)
Lemma prepare_song_data_entry (row : dict) (l : list event) (d : dict)
    (k : string) (v : value) :
  prepare_song_data float_repr row = (l, Ok d) ->
  In (k, v) d ->
  In k fields /\ v <> VNone
  /\ exists lv, field_value float_repr row k = (lv, Ok v).
Proof.
  unfold prepare_song_data. intros H Hin.
  apply lbind_ok in H as (l1 & d0 & l2 & Hb & H & _).
  injection H as _ <-. apply filter_In in Hin as [Hin Hnn].
  apply build_literal_entries in Hb as [Hk He]. repeat split.
  - rewrite <- Hk. apply in_map_iff. now exists (k, v).
  - intros ->. discriminate.
  - now apply He.
Qed.

Lemma filter_keys (d : dict) (row : dict) :
  (forall k v, In (k, v) d ->
     exists lv, field_value float_repr row k = (lv, Ok v)) ->
  map fst (filter not_none d)
  = filter (field_kept float_repr row) (map fst d).
Proof.
  induction d as [|[k v] d IH]; simpl; intros H; [reflexivity|].
  destruct (H k v (or_introl eq_refl)) as [lv Hv].
  unfold field_kept at 1. rewrite Hv. unfold not_none at 1. cbn [snd].
  destruct (negb (is_none v)); simpl; rewrite IH; auto.
Qed.

End Fields.

(** X3. Under every field name but the view count [clean_value] neither
    raises nor logs; what it returns is [None], an [int], a [float] that
    is no NaN, or a string without white space at either end. *)
Theorem clean_value_never_raises :
  forall (float_repr : pyfloat -> string) (v : value) (f : string),
    f <> "youtube_views" ->
    exists r,
      clean_value float_repr v f = ([], Ok r)
      /\ (r = VNone \/ plain r = true)
      /\ (forall s, r = VStr s -> Str.strip s = s).
Proof.
  intros float_repr v f Hf. apply clean_value_other.
  now apply String.eqb_neq.
Qed.

Lemma clean_value_never_raises_witness :
  exists r,
    clean_value Sample.float_repr (VStr " rock ") "genre" = ([], Ok r)
    /\ (r = VNone \/ plain r = true)
    /\ (forall s, r = VStr s -> Str.strip s = s).
Proof.
  apply (clean_value_never_raises Sample.float_repr (VStr " rock ") "genre").
  discriminate.
Defined.

Lemma fields_distinct : NoDup fields.
Proof.
  unfold fields.
  repeat (constructor; [simpl; intros H; repeat destruct H as [H|H];
                        discriminate H || exact H|]).
  constructor.
Qed.

(** X4. [prepare_song_data] returns a record exactly when the row has
    the seventeen columns it looks up and the view count does not read
    as an infinity.  The exception it raises otherwise is the [KeyError]
    of a missing column or the [OverflowError] of the view count; it is
    the [KeyError] of the title, the first entry of the literal, when
    that column is missing, whatever the other cells hold. *)
Theorem prepare_song_data_failures :
  forall (float_repr : pyfloat -> string) (row : dict),
    (has_columns row = true /\ views_infinite row = false
     <-> exists l d, prepare_song_data float_repr row = (l, Ok d))
    /\ (forall l e,
          prepare_song_data float_repr row = (l, Raise e) ->
          (exists f, In f fields /\ dict_get f row = None
                     /\ e = KeyError f)
          \/ (views_infinite row = true
              /\ e = OverflowError
                       "cannot convert float infinity to integer"))
    /\ (dict_get "title" row = None ->
        prepare_song_data float_repr row = ([], Raise (KeyError "title"))).
Proof.
  intros float_repr row. split; [split|split].
  - intros [Hc Hv]. unfold prepare_song_data.
    destruct (build_literal_returns float_repr row fields) as (l & d & ->).
    + intros f Hf. apply field_value_returns; [|intros _; exact Hv].
      unfold has_columns in Hc. rewrite forallb_forall in Hc.
      specialize (Hc f Hf). now destruct (dict_get f row).
    + simpl. eexists; eexists; reflexivity.
  - intros (l & d & H). unfold prepare_song_data in H.
    apply lbind_ok in H as (l1 & d0 & l2 & Hb & _ & _).
    apply build_literal_entries in Hb as [Hk He].
    assert (Hf : forall f, In f fields ->
               exists lv v, field_value float_repr row f = (lv, Ok v)).
    { intros f Hf. rewrite <- Hk in Hf.
      apply in_map_iff in Hf as [[k v] [<- Hin]].
      destruct (He k v Hin) as [lv Hv]. now exists lv, v. }
    split.
    + unfold has_columns. apply forallb_forall. intros f Hin.
      destruct (Hf f Hin) as (lv & v & Hv).
      unfold field_value, series_get in Hv.
      now destruct (dict_get f row).
    + destruct (Hf "youtube_views") as (lv & v & Hv); [simpl; tauto|].
      unfold views_infinite. unfold field_value, series_get in Hv.
      destruct (dict_get "youtube_views" row) as [x|]; [|reflexivity].
      assert (Hx : clean_value float_repr x "youtube_views" = (lv, Ok v))
        by exact Hv.
      rewrite clean_value_views in Hx.
      destruct (is_infinite x) eqn:Ei; [|reflexivity].
      rewrite (clean_number_infinite x Ei) in Hx. discriminate.
  - intros l e H. unfold prepare_song_data in H.
    destruct (build_literal float_repr row fields) as [l1 [d|e1]] eqn:Eb;
      [discriminate|].
    injection H as _ <-.
    apply build_literal_raises in Eb as (f & lv & Hin & Hf).
    apply field_value_raises in Hf as [[Hn ->]|(-> & Hv & ->)].
    + left. now exists f.
    + right. now split.
  - intros H. unfold prepare_song_data, fields. cbn [build_literal].
    unfold field_value at 1. unfold series_get. rewrite H. reflexivity.
Qed.

Lemma prepare_song_data_failures_witness :
  prepare_song_data Sample.float_repr Demo.row_no_genre
  = ([], Raise (KeyError "genre"))
  /\ exists l d, prepare_song_data Sample.float_repr Sample.row_b = (l, Ok d).
Proof.
  split; [reflexivity|].
  apply (proj1 (prepare_song_data_failures Sample.float_repr Sample.row_b)).
  split; reflexivity.
Defined.

(** X5. The keys of the record are the fields of the literal whose value
    is not [None], in the literal's order and each once: a column the
    literal does not name is never sent. *)
Theorem prepare_song_data_keys :
  forall (float_repr : pyfloat -> string) (row : dict)
         (l : list event) (d : dict),
    prepare_song_data float_repr row = (l, Ok d) ->
    map fst d = filter (field_kept float_repr row) fields
    /\ NoDup (map fst d)
    /\ forall k, In k (map fst d) -> In k fields.
Proof.
  intros float_repr row l d H. unfold prepare_song_data in H.
  apply lbind_ok in H as (l1 & d0 & l2 & Hb & H & _).
  injection H as _ <-.
  apply build_literal_entries in Hb as [Hk He].
  assert (E : map fst (filter not_none d0)
              = filter (field_kept float_repr row) fields).
  { rewrite <- Hk. now apply filter_keys. }
  rewrite E. split; [reflexivity|]. split.
  - apply NoDup_filter, fields_distinct.
  - intros k Hin. now apply filter_In in Hin.
Qed.

Lemma prepare_song_data_keys_witness :
  map fst (payload Sample.float_repr Sample.row_c)
  = [ "title"; "artist"; "average_score"; "score_2024_10";
      "score_2024_q3"; "score_2023"; "language"; "genre"; "energy";
      "youtube_url"; "youtube_views"; "album_name" ].
Proof.
  rewrite (proj1 (prepare_song_data_keys Sample.float_repr Sample.row_c []
                    (payload Sample.float_repr Sample.row_c) eq_refl)).
  reflexivity.
Defined.

(** X6. The record depends on the seventeen looked-up cells only: two
    rows that agree on them give the same record, the same warnings and
    the same exception, whatever other columns they hold and in whatever
    order the columns stand. *)
Theorem prepare_song_data_columns :
  forall (float_repr : pyfloat -> string) (row row' : dict),
    (forall f, In f fields -> dict_get f row = dict_get f row') ->
    prepare_song_data float_repr row = prepare_song_data float_repr row'.
Proof.
  intros float_repr row row' H. unfold prepare_song_data.
  now rewrite (build_literal_agree float_repr row row' fields H).
Qed.

Lemma prepare_song_data_columns_witness :
  prepare_song_data Sample.float_repr Demo.row_b_extra
  = prepare_song_data Sample.float_repr Sample.row_b.
Proof.
  apply (prepare_song_data_columns Sample.float_repr Demo.row_b_extra
           Sample.row_b).
  intros f Hf. simpl in Hf.
  repeat (destruct Hf as [<-|Hf]; [reflexivity|]). contradiction.
Defined.

(** X7. A record holds [int]s, [float]s that are no NaN and strings,
    nothing else: the view count is an [int], the album date a string,
    every other string has no white space at either end, and [json]
    can encode the whole of it. *)
Theorem prepare_song_data_values :
  forall (float_repr : pyfloat -> string) (row : dict)
         (l : list event) (d : dict),
    prepare_song_data float_repr row = (l, Ok d) ->
    (forall k v, In (k, v) d -> plain v = true)
    /\ (forall v, dict_get "youtube_views" d = Some v -> exists z, v = VInt z)
    /\ (forall v, dict_get "album_date" d = Some v -> exists s, v = VStr s)
    /\ (forall k s, In (k, VStr s) d -> k <> "album_date" ->
          Str.strip s = s)
    /\ json_dict_error d = None.
Proof.
  intros float_repr row l d H.
  assert (Hp : forall k v, In (k, v) d -> plain v = true).
  { intros k v Hin.
    destruct (prepare_song_data_entry float_repr row l d k v H Hin)
      as (_ & Hn & lv & Hv).
    apply field_value_plain in Hv as ([->|Hv] & _); [now elim Hn|exact Hv]. }
  split; [exact Hp|]. split; [|split; [|split]].
  - intros v Hg. apply dict_get_In in Hg.
    destruct (prepare_song_data_entry float_repr row l d _ v H Hg)
      as (_ & Hn & lv & Hv).
    apply field_value_plain in Hv as (_ & Hv & _).
    destruct (Hv eq_refl) as [->|Hz]; [now elim Hn|exact Hz].
  - intros v Hg. apply dict_get_In in Hg.
    destruct (prepare_song_data_entry float_repr row l d _ v H Hg)
      as (_ & Hn & lv & Hv).
    apply field_value_plain in Hv as (_ & _ & Hv & _).
    destruct (Hv eq_refl) as [->|Hz]; [now elim Hn|exact Hz].
  - intros k s Hin Hk.
    destruct (prepare_song_data_entry float_repr row l d k _ H Hin)
      as (_ & _ & lv & Hv).
    apply field_value_plain in Hv as (_ & _ & _ & Hv). now apply Hv.
  - clear H. induction d as [|[k v] d IH]; [reflexivity|].
    cbn [json_dict_error].
    assert (Hv : plain v = true) by (apply (Hp k); now left).
    destruct v as [| | |b|z|g|s|y m dd]; try discriminate;
      apply IH; intros k' v' Hin; apply (Hp k'); now right.
Qed.

Lemma prepare_song_data_values_witness :
  json_dict_error (payload Sample.float_repr Sample.row_b) = None
  /\ forall v,
       dict_get "youtube_views" (payload Sample.float_repr Sample.row_b)
       = Some v -> exists z, v = VInt z.
Proof.
  destruct (prepare_song_data_values Sample.float_repr Sample.row_b []
              (payload Sample.float_repr Sample.row_b) eq_refl)
    as (_ & Hv & _ & _ & Hj).
  split; [exact Hj|exact Hv].
Defined.

(** ** What one row and the loop do to the state *)

Lemma files_written_warnings (l : list event) :
  forallb is_warning l = true -> files_written l = [].
Proof.
  induction l as [|e l IH]; simpl; [reflexivity|].
  destruct e; simpl; try discriminate. exact IH.
Qed.

Section Effects.

Variable float_repr : pyfloat -> string.
Variable W : Type.
Variable sink_insert : W -> dict -> W * option string.
Variable clock : nat -> datetime.

Lemma import_row_effects (total index : nat) (row : dict)
    (st : state W) (loc : locals) :
  forall st' loc' r,
    import_row float_repr sink_insert clock total index row st loc
    = (st', loc', r) ->
    exists news,
      failed_records st' = (failed_records st ++ news)%list
      /\ failed_imports loc' = (failed_imports loc + List.length news)%nat
      /\ ticks st' = (ticks st + List.length news)%nat
      /\ (forall fr, In fr news ->
            exists e, fr = failed_record row e (clock (ticks st)))
      /\ files_written (trace st') = files_written (trace st)
      /\ match r with
         | Ok _ =>
             (successful_imports loc' + failed_imports loc'
              = S (successful_imports loc + failed_imports loc))%nat
             /\ song_data loc'
                = match prepare_song_data float_repr row with
                  | (_, Ok d) => Some d
                  | (_, Raise _) => song_data loc
                  end
             /\ song_data loc' <> None
             /\ inserts (trace st')
                = (inserts (trace st) ++ sent float_repr row)%list
         | Raise e =>
             e = UnboundLocalError song_data_unbound
             /\ song_data loc = None
             /\ preparable float_repr row = false
             /\ news = []
             /\ successful_imports loc' = successful_imports loc
             /\ inserts (trace st') = inserts (trace st)
         end.
Proof.
  intros st' loc' r.
  pose proof (prepare_song_data_logs float_repr row) as Hl.
  unfold sent, reaches_sink, preparable, payload.
  destruct (prepare_song_data float_repr row) as [l [d|e]] eqn:Hp;
    cbn [fst] in Hl.
  - destruct (dict_get "title" d) as [title|] eqn:Ht.
    + destruct (sink_insert (sink st) d) as [w [text|]] eqn:Hs.
      * rewrite (import_row_rejected float_repr W sink_insert clock total
                   index row st loc l d title w text Hp Ht Hs).
        intros [= <- <- <-].
        exists [failed_record row (SinkError text) (clock (ticks st))].
        cbn [failed_records failed_imports successful_imports ticks trace
             song_data List.length].
        rewrite !files_written_app, !inserts_app,
          (files_written_warnings l Hl), (inserts_warnings l Hl).
        cbn [files_written inserts app]. rewrite ?app_nil_r.
        repeat split; try lia; try discriminate.
        intros fr [<-|[]]. now eexists.
      * rewrite (import_row_accepted float_repr W sink_insert clock total
                   index row st loc l d title w Hp Ht Hs).
        intros [= <- <- <-]. exists [].
        cbn [failed_records failed_imports successful_imports ticks trace
             song_data List.length].
        rewrite !files_written_app, !inserts_app,
          (files_written_warnings l Hl), (inserts_warnings l Hl).
      cbn [files_written inserts app]. rewrite ?app_nil_r.
        repeat split; try lia; try discriminate. intros fr [].
    + rewrite (import_row_untitled float_repr W sink_insert clock total
                 index row st loc l d Hp Ht).
      intros [= <- <- <-].
      exists [failed_record row (KeyError "title") (clock (ticks st))].
      cbn [failed_records failed_imports successful_imports ticks trace
           song_data List.length].
      rewrite !files_written_app, !inserts_app,
        (files_written_warnings l Hl), (inserts_warnings l Hl).
      cbn [files_written inserts app]. rewrite ?app_nil_r.
      repeat split; try lia; try discriminate.
      intros fr [<-|[]]. now eexists.
  - destruct (song_data loc) as [sd|] eqn:Hb.
    + rewrite (import_row_prepare_raises_bound float_repr W sink_insert clock
                 total index row st loc l e sd Hp Hb).
      intros [= <- <- <-].
      exists [failed_record row e (clock (ticks st))].
      cbn [failed_records failed_imports successful_imports ticks trace
           song_data List.length].
      rewrite !files_written_app, !inserts_app,
        (files_written_warnings l Hl), (inserts_warnings l Hl).
      cbn [files_written inserts app]. rewrite ?app_nil_r.
      repeat split; try lia; try discriminate.
      intros fr [<-|[]]. now eexists.
    + unfold import_row. rewrite Hp. unfold row_handler. rewrite Hb.
      intros [= <- <- <-]. exists []. unfold emit.
      cbn [failed_records failed_imports successful_imports ticks trace
           song_data List.length].
      rewrite !files_written_app, !inserts_app,
        (files_written_warnings l Hl), (inserts_warnings l Hl).
      cbn [files_written inserts app]. rewrite ?app_nil_r.
      repeat split; try lia; try assumption. intros fr [].
Qed.

Lemma import_loop_effects (total : nat) (rows : list dict) :
  forall index st loc st' loc' r,
    import_loop float_repr sink_insert clock total index rows st loc
    = (st', loc', r) ->
    exists news,
      failed_records st' = (failed_records st ++ news)%list
      /\ failed_imports loc' = (failed_imports loc + List.length news)%nat
      /\ ticks st' = (ticks st + List.length news)%nat
      /\ (forall fr, In fr news ->
            exists row e t, In row rows /\ fr = failed_record row e t)
      /\ files_written (trace st') = files_written (trace st)
      /\ (successful_imports loc' + failed_imports loc'
          <= successful_imports loc + failed_imports loc
             + List.length rows)%nat
      /\ match r with
         | Ok _ =>
             (successful_imports loc' + failed_imports loc'
              = successful_imports loc + failed_imports loc
                + List.length rows)%nat
             /\ inserts (trace st')
                = (inserts (trace st) ++ flat_map (sent float_repr) rows)%list
         | Raise e =>
             e = UnboundLocalError song_data_unbound
             /\ song_data loc = None
             /\ first_preparable float_repr rows = false
             /\ news = []
             /\ successful_imports loc' = successful_imports loc
             /\ inserts (trace st') = inserts (trace st)
         end.
Proof.
  induction rows as [|row rows IH]; intros index st loc st' loc' r.
  - cbn [import_loop]. intros [= <- <- <-]. exists [].
    cbn [List.length flat_map]. rewrite !app_nil_r.
    repeat split; try lia. intros fr [].
  - cbn [import_loop].
    destruct (import_row float_repr sink_insert clock total index row st loc)
      as [[st1 loc1] [[]|e1]] eqn:E1;
      apply import_row_effects in E1
        as (n1 & F1 & C1 & T1 & R1 & W1 & E1).
    + destruct E1 as (S1 & D1 & B1 & I1). intros E2.
      apply IH in E2 as (n2 & F2 & C2 & T2 & R2 & W2 & L2 & E2).
      exists (n1 ++ n2)%list. rewrite length_app. cbn [List.length].
      split; [now rewrite F2, F1, app_assoc|].
      split; [lia|]. split; [lia|]. split.
      { intros fr Hin. apply in_app_or in Hin as [Hin|Hin].
        - destruct (R1 fr Hin) as [e ->]. exists row, e, (clock (ticks st)).
          split; [now left|reflexivity].
        - destruct (R2 fr Hin) as (row' & e & t & Hr & ->).
          exists row', e, t. split; [now right|reflexivity]. }
      split; [now rewrite W2|]. split; [lia|].
      destruct r as [[]|e].
      * destruct E2 as [S2 I2]. split; [lia|].
        cbn [flat_map]. now rewrite I2, I1, app_assoc.
      * destruct E2 as (_ & Hn & _). now elim B1.
    + intros [= <- <- <-].
      destruct E1 as (-> & Hb & Hp & -> & S1 & I1).
      exists []. cbn [List.length] in *. rewrite app_nil_r in *.
      repeat split; try lia; try assumption. intros fr [].
Qed.

(** The loop is left on an exception by the first row only. *)
Lemma import_loop_completes (total index : nat) (rows : list dict)
    (st : state W) (loc : locals) :
  first_preparable float_repr rows = true ->
  snd (import_loop float_repr sink_insert clock total index rows st loc)
  = Ok tt.
Proof.
  intros H.
  destruct (import_loop float_repr sink_insert clock total index rows st loc)
    as [[st' loc'] [[]|e]] eqn:E; [reflexivity|].
  apply import_loop_effects in E as (n & _ & _ & _ & _ & _ & _ & E).
  destruct E as (_ & _ & Hf & _). congruence.
Qed.

End Effects.


Lemma flat_map_sent (float_repr : pyfloat -> string) (rows : list dict) :
  flat_map (sent float_repr) rows
  = map (payload float_repr) (filter (reaches_sink float_repr) rows).
Proof.
  induction rows as [|row rows IH]; simpl; [reflexivity|].
  unfold sent at 1. destruct (reaches_sink float_repr row); simpl;
    now rewrite IH.
Qed.

(** ** What [json.dump] can encode *)

Lemma json_dict_error_encodable (d : dict) :
  json_dict_error d = None <-> row_encodable d = true.
Proof.
  unfold row_encodable. induction d as [|[k v] d IH]; simpl; [tauto|].
  unfold json_encodable at 1. cbn [snd].
  destruct (json_type_error v); simpl; [|exact IH].
  split; discriminate.
Qed.

Lemma json_dump_error_encodable (l : list dict) :
  json_dump_error l = None <-> forallb row_encodable l = true.
Proof.
  induction l as [|d l IH]; simpl; [tauto|].
  destruct (json_dict_error d) as [e|] eqn:E.
  - destruct (row_encodable d) eqn:R.
    + apply json_dict_error_encodable in R. congruence.
    + simpl. split; discriminate.
  - apply json_dict_error_encodable in E. now rewrite E.
Qed.

Lemma row_encodable_set (k : string) (v : value) (d : dict) :
  json_encodable v = true -> row_encodable d = true ->
  row_encodable (dict_set k v d) = true.
Proof.
  unfold row_encodable. intros Hv.
  induction d as [|[k' v'] d IH]; simpl.
  - now rewrite Hv.
  - intros H. apply andb_true_iff in H as [H1 H2].
    destruct (String.eqb k k'); simpl.
    + now rewrite Hv, H2.
    + now rewrite H1, IH.
Qed.

Lemma row_encodable_to_dict (row : dict) :
  row_encodable row = true -> row_encodable (to_dict row) = true.
Proof.
  unfold to_dict.
  assert (G : forall acc, row_encodable acc = true ->
              row_encodable row = true ->
              row_encodable
                (fold_left (fun d kv => dict_set (fst kv) (snd kv) d) row acc)
              = true).
  { induction row as [|[k v] row IH]; simpl; intros acc Ha Hr; [exact Ha|].
    unfold row_encodable in Hr. simpl in Hr.
    apply andb_true_iff in Hr as [H1 H2].
    apply IH; [|exact H2]. now apply row_encodable_set. }
  now apply G.
Qed.

Lemma failed_record_encodable (row : dict) (e : exn) (t : datetime) :
  row_encodable row = true -> row_encodable (failed_record row e t) = true.
Proof.
  intros H. unfold failed_record.
  apply row_encodable_set; [reflexivity|].
  apply row_encodable_set; [reflexivity|].
  now apply row_encodable_to_dict.
Qed.

(** ** What the failure recorder and the loader do to the state *)

Lemma save_failed_records_effects (W : Type) (clock : nat -> datetime)
    (st : state W) :
  forall st' r,
    save_failed_records clock st = (st', r) ->
    sink st' = sink st
    /\ failed_records st' = failed_records st
    /\ inserts (trace st') = inserts (trace st)
    /\ r = match json_dump_error (failed_records st) with
           | Some e => Raise e
           | None => Ok tt
           end
    /\ (ticks st' <= S (ticks st))%nat
    /\ (failed_records st <> [] ->
        exists new,
          trace st' = (trace st ++ new)%list
          /\ In (WriteCsv (csv_path (strftime_file (clock (ticks st))))
                   (failed_records st)) new).
Proof.
  intros st' r. unfold save_failed_records.
  destruct (failed_records st) as [|d l] eqn:E.
  - intros [= <- <-]. cbn. rewrite E, inserts_app. cbn.
    rewrite app_nil_r. repeat split; try lia. intros H. now elim H.
  - unfold now, emit. destruct (json_dump_error (d :: l)) as [e|];
      intros [= <- <-]; cbn [sink ticks failed_records trace fst snd];
      rewrite !inserts_app; cbn [inserts]; rewrite !app_nil_r;
      (repeat split; try assumption; try lia);
      intros _; rewrite <- !app_assoc; eexists; (split; [reflexivity|]);
      cbn; tauto.
Qed.

Section Accounting.

Variable float_repr : pyfloat -> string.
Variable W : Type.
Variable sink_insert : W -> dict -> W * option string.
Variable clock : nat -> datetime.

Lemma import_songs_effects (df : list dict) (st : state W) :
  forall st' loc r,
    import_songs float_repr sink_insert clock df st = (st', loc, r) ->
    exists news,
      failed_records st' = (failed_records st ++ news)%list
      /\ List.length news = failed_imports loc
      /\ (forall fr, In fr news ->
            exists row e t, In row df /\ fr = failed_record row e t)
      /\ (successful_imports loc + failed_imports loc
          <= List.length df)%nat
      /\ (first_preparable float_repr df = true ->
          (successful_imports loc + failed_imports loc
           = List.length df)%nat
          /\ inserts (trace st')
             = (inserts (trace st)
                ++ map (payload float_repr)
                     (filter (reaches_sink float_repr) df))%list
          /\ r = match json_dump_error (failed_records st') with
                 | Some e => Raise e
                 | None => Ok tt
                 end)
      /\ (r = Ok tt ->
          exists tr,
            trace st'
            = (tr ++ [LogSummary (List.length df) (successful_imports loc)
                        (failed_imports loc)])%list)
      /\ (failed_records st' <> [] ->
          exists path, In (WriteCsv path (failed_records st')) (trace st')).
Proof.
  intros st' loc r. unfold import_songs.
  destruct (import_loop float_repr sink_insert clock (List.length df) 0 df st
              {| successful_imports := 0; failed_imports := 0;
                 song_data := None |}) as [[st1 loc1] r1] eqn:EL.
  pose proof (import_loop_completes float_repr W sink_insert clock
                (List.length df) 0 df st
                {| successful_imports := 0; failed_imports := 0;
                   song_data := None |}) as Hc.
  rewrite EL in Hc. cbn [snd] in Hc.
  apply import_loop_effects in EL
    as (news & F1 & C1 & _ & R1 & _ & L1 & E1).
  cbn [successful_imports failed_imports] in *.
  set (st2 := match r1 with
              | Ok _ => st1
              | Raise e => emit [LogImportError (str_exn e)] st1
              end).
  assert (F2 : failed_records st2 = failed_records st1)
    by (unfold st2; now destruct r1).
  assert (I2 : inserts (trace st2) = inserts (trace st1)).
  { unfold st2. destruct r1; [reflexivity|]. cbn.
    rewrite inserts_app. cbn. now rewrite app_nil_r. }
  destruct (save_failed_records clock st2) as [st3 r3] eqn:ES.
  apply save_failed_records_effects in ES as (_ & F3 & I3 & R3 & _ & W3).
  assert (G : forall st4 : state W,
             failed_records st4 = failed_records st3 ->
             inserts (trace st4) = inserts (trace st3) ->
             (forall x, In x (trace st3) -> In x (trace st4)) ->
             (r3 = Ok tt ->
              exists tr,
                trace st4
                = (tr ++ [LogSummary (List.length df)
                            (successful_imports loc1)
                            (failed_imports loc1)])%list) ->
             exists news0,
               failed_records st4 = (failed_records st ++ news0)%list
               /\ List.length news0 = failed_imports loc1
               /\ (forall fr, In fr news0 ->
                     exists row e t,
                       In row df /\ fr = failed_record row e t)
               /\ (successful_imports loc1 + failed_imports loc1
                   <= List.length df)%nat
               /\ (first_preparable float_repr df = true ->
                   (successful_imports loc1 + failed_imports loc1
                    = List.length df)%nat
                   /\ inserts (trace st4)
                      = (inserts (trace st)
                         ++ map (payload float_repr)
                              (filter (reaches_sink float_repr) df))%list
                   /\ match r3 with
                      | Ok _ => r1
                      | Raise e' => Raise e'
                      end
                      = match json_dump_error (failed_records st4) with
                        | Some e => Raise e
                        | None => Ok tt
                        end)
               /\ (match r3 with
                   | Ok _ => r1
                   | Raise e' => Raise e'
                   end = Ok tt ->
                   exists tr,
                     trace st4
                     = (tr ++ [LogSummary (List.length df)
                                 (successful_imports loc1)
                                 (failed_imports loc1)])%list)
               /\ (failed_records st4 <> [] ->
                   exists path,
                     In (WriteCsv path (failed_records st4)) (trace st4))).
  { intros st4 F4 I4 T4 S4. exists news.
    split; [now rewrite F4, F3, F2|]. split; [lia|].
    split; [exact R1|]. split; [lia|]. split; [|split].
    - intros Hp. specialize (Hc Hp). subst r1. destruct E1 as [S1 J1].
      split; [lia|]. split.
      + now rewrite I4, I3, I2, J1, flat_map_sent.
      + rewrite F4, F3, R3. now destruct (json_dump_error _).
    - destruct r3 as [[]|e3]; [|discriminate]. intros _. now apply S4.
    - rewrite F4, F3. intros Hne. destruct (W3 Hne) as (new & Et & Hin).
      eexists. apply T4. rewrite Et. apply in_or_app. right. exact Hin. }
  destruct r3 as [[]|e3]; intros [= <- <- <-].
  - apply G; try reflexivity.
    + cbn. rewrite inserts_app. cbn. now rewrite app_nil_r.
    + intros x Hx. cbn. apply in_or_app. now left.
    + intros _. cbn. now eexists.
  - apply G; try reflexivity; [auto|discriminate].
Qed.

End Accounting.

(** X8. [save_failed_records] never clears [failed_records], nor touches
    the sink: the records of one batch are still there, and written
    again, when it next runs.  It reads the clock once at most, and it
    returns exactly when no record holds a value [json.dump] cannot
    encode. *)
Theorem save_failed_records_keeps_records :
  forall (W : Type) (clock : nat -> datetime) (st : state W),
    let run := save_failed_records clock st in
    failed_records (fst run) = failed_records st
    /\ sink (fst run) = sink st
    /\ (ticks (fst run) <= S (ticks st))%nat
    /\ (snd run = Ok tt
        <-> forallb row_encodable (failed_records st) = true).
Proof.
  intros W clock st run. subst run.
  destruct (save_failed_records clock st) as [st' r] eqn:E.
  apply save_failed_records_effects in E as (Hs & Hf & _ & Hr & Ht & _).
  cbn [fst snd]. repeat split; try assumption.
  - intros ->. apply json_dump_error_encodable.
    now destruct (json_dump_error (failed_records st)).
  - intros H. apply json_dump_error_encodable in H. now rewrite Hr, H.
Qed.

(** X9. The failure counter of [import_songs] is the number of records
    the run appends to [failed_records]; each of them is a row of the
    data frame with its two diagnostic keys, the records of earlier runs
    stay in front, and successes and failures together never exceed the
    number of rows. *)
Theorem import_songs_accounting :
  forall (float_repr : pyfloat -> string) (W : Type)
         (sink_insert : W -> dict -> W * option string)
         (clock : nat -> datetime) (df : list dict) (st : state W),
    let run := import_songs float_repr sink_insert clock df st in
    let st' := fst (fst run) in
    let loc := snd (fst run) in
    (successful_imports loc + failed_imports loc <= List.length df)%nat
    /\ exists news,
         failed_records st' = (failed_records st ++ news)%list
         /\ List.length news = failed_imports loc
         /\ forall fr, In fr news ->
              exists row e t, In row df /\ fr = failed_record row e t.
Proof.
  intros float_repr W sink_insert clock df st. cbv zeta.
  destruct (import_songs float_repr sink_insert clock df st)
    as [[st' loc] r] eqn:E.
  apply import_songs_effects in E as (news & F & C & R & L & _).
  cbn [fst snd]. split; [exact L|]. now exists news.
Qed.

(** X10. Once the first row has a record no row can end the batch: every
    row is counted, as a success or as a failure, and the only exception
    [import_songs] can raise is the one of [json.dump] on the failed
    records. *)
Theorem import_songs_counts_every_row :
  forall (float_repr : pyfloat -> string) (W : Type)
         (sink_insert : W -> dict -> W * option string)
         (clock : nat -> datetime) (df : list dict) (st : state W),
    first_preparable float_repr df = true ->
    let run := import_songs float_repr sink_insert clock df st in
    let st' := fst (fst run) in
    let loc := snd (fst run) in
    (successful_imports loc + failed_imports loc = List.length df)%nat
    /\ snd run = match json_dump_error (failed_records st') with
                 | Some e => Raise e
                 | None => Ok tt
                 end.
Proof.
  intros float_repr W sink_insert clock df st Hp. cbv zeta.
  destruct (import_songs float_repr sink_insert clock df st)
    as [[st' loc] r] eqn:E.
  apply import_songs_effects in E as (news & _ & _ & _ & _ & H & _).
  destruct (H Hp) as (Hc & _ & Hr). cbn [fst snd]. now split.
Qed.

Lemma import_songs_counts_every_row_witness :
  let run := import_songs Sample.float_repr (Sample.reject_nth 0 "timeout")
               Sample.clock [Sample.row_b; Sample.row_inf; Sample.row_c]
               (Sample.start 0%nat) in
  (successful_imports (snd (fst run)) + failed_imports (snd (fst run))
   = 3)%nat
  /\ snd run = Ok tt.
Proof.
  destruct (import_songs_counts_every_row Sample.float_repr nat
              (Sample.reject_nth 0 "timeout") Sample.clock
              [Sample.row_b; Sample.row_inf; Sample.row_c]
              (Sample.start 0%nat) eq_refl) as [Hc Hr].
  split; [exact Hc|]. rewrite Hr. vm_compute. reflexivity.
Defined.

(** X11. Once the first row has a record, the sink is called once for
    each row that has a record with a title, in the order of the rows
    and with that record, whatever the sink answers: a rejected row is
    not sent again, and no row after it is skipped. *)
Theorem import_songs_sends_each_row_once :
  forall (float_repr : pyfloat -> string) (W : Type)
         (sink_insert : W -> dict -> W * option string)
         (clock : nat -> datetime) (df : list dict) (st : state W),
    first_preparable float_repr df = true ->
    inserts (trace (fst (fst (import_songs float_repr sink_insert clock
                                df st))))
    = (inserts (trace st)
       ++ map (payload float_repr)
            (filter (reaches_sink float_repr) df))%list.
Proof.
  intros float_repr W sink_insert clock df st Hp.
  destruct (import_songs float_repr sink_insert clock df st)
    as [[st' loc] r] eqn:E.
  apply import_songs_effects in E as (news & _ & _ & _ & _ & H & _).
  now destruct (H Hp) as (_ & Hi & _).
Qed.

Lemma import_songs_sends_each_row_once_witness :
  inserts (trace (fst (fst (import_songs Sample.float_repr
                              (Sample.reject_nth 0 "timeout") Sample.clock
                              [Sample.row_b; Sample.row_untitled;
                               Sample.row_inf; Sample.row_c]
                              (Sample.start 0%nat)))))
  = [payload Sample.float_repr Sample.row_b;
     payload Sample.float_repr Sample.row_c].
Proof.
  rewrite (import_songs_sends_each_row_once Sample.float_repr nat
             (Sample.reject_nth 0 "timeout") Sample.clock
             [Sample.row_b; Sample.row_untitled; Sample.row_inf;
              Sample.row_c]
             (Sample.start 0%nat) eq_refl).
  reflexivity.
Defined.

(** X12. A sufficient condition for [import_songs] to return, whatever
    the sink does: the first row has a record, and no cell of the data
    frame, nor of the records of earlier runs, is of a type [json.dump]
    cannot encode.  The summary is then the last thing logged. *)
Theorem import_songs_returns :
  forall (float_repr : pyfloat -> string) (W : Type)
         (sink_insert : W -> dict -> W * option string)
         (clock : nat -> datetime) (df : list dict) (st : state W),
    first_preparable float_repr df = true ->
    forallb row_encodable df = true ->
    forallb row_encodable (failed_records st) = true ->
    let run := import_songs float_repr sink_insert clock df st in
    snd run = Ok tt
    /\ exists tr,
         trace (fst (fst run))
         = (tr ++ [LogSummary (List.length df)
                     (successful_imports (snd (fst run)))
                     (failed_imports (snd (fst run)))])%list.
Proof.
  intros float_repr W sink_insert clock df st Hp Hd Hs. cbv zeta.
  destruct (import_songs float_repr sink_insert clock df st)
    as [[st' loc] r] eqn:E.
  apply import_songs_effects in E as (news & F & _ & R & _ & H & S & _).
  destruct (H Hp) as (_ & _ & Hr). cbn [fst snd].
  assert (J : json_dump_error (failed_records st') = None).
  { apply json_dump_error_encodable. rewrite F, forallb_app, Hs.
    apply forallb_forall. intros fr Hin.
    destruct (R fr Hin) as (row & e & t & Hrow & ->).
    apply failed_record_encodable.
    rewrite forallb_forall in Hd. now apply Hd. }
  rewrite J in Hr. split; [exact Hr|]. now apply S.
Qed.

Lemma import_songs_returns_witness :
  snd (import_songs Sample.float_repr (Sample.reject_nth 1 "timeout")
         Sample.clock [Sample.row_b; Sample.row_b; Sample.row_inf]
         (Sample.start 0%nat))
  = Ok tt.
Proof.
  apply (import_songs_returns Sample.float_repr nat
           (Sample.reject_nth 1 "timeout") Sample.clock
           [Sample.row_b; Sample.row_b; Sample.row_inf]
           (Sample.start 0%nat)); reflexivity.
Defined.

(** X13. When every row reaches the sink and is accepted, and no record
    of an earlier run is left, [import_songs] returns with every row
    counted as a success and none as a failure, leaves the sink in the
    state the rows brought it to, writes no file, and ends its log with
    the note that there is nothing to save and the summary. *)
Theorem import_songs_all_accepted :
  forall (float_repr : pyfloat -> string) (W : Type)
         (sink_insert : W -> dict -> W * option string)
         (clock : nat -> datetime) (df : list dict) (st : state W) (w : W),
    sink_accepts float_repr sink_insert (sink st) df = Some w ->
    failed_records st = [] ->
    exists st' loc tr,
      import_songs float_repr sink_insert clock df st = (st', loc, Ok tt)
      /\ sink st' = w
      /\ successful_imports loc = List.length df
      /\ failed_imports loc = 0%nat
      /\ failed_records st' = []
      /\ files_written (trace st') = files_written (trace st)
      /\ trace st'
         = (tr ++ [LogNothingToSave;
                   LogSummary (List.length df) (List.length df) 0])%list.
Proof.
  intros float_repr W sink_insert clock df st w Ha Hf.
  unfold import_songs.
  destruct (import_loop_accepts float_repr W sink_insert clock
              (List.length df) df 0 st
              {| successful_imports := 0; failed_imports := 0;
                 song_data := None |} w Ha)
    as (st1 & loc1 & E & S1 & _ & F1 & _ & C1 & D1).
  pose proof E as E'.
  apply import_loop_effects in E' as (_ & _ & _ & _ & _ & W1 & _).
  rewrite E. unfold save_failed_records. rewrite F1, Hf.
  cbn [successful_imports failed_imports] in *.
  eexists; eexists; exists (trace st1). split; [reflexivity|].
  cbn [emit sink failed_records trace]. rewrite C1, D1, F1, Hf, <- W1.
  rewrite <- app_assoc, files_written_app. cbn. rewrite app_nil_r.
  repeat split; assumption.
Qed.

Lemma import_songs_all_accepted_witness :
  exists st' loc tr,
    import_songs Sample.float_repr Sample.accept_all Sample.clock
      [Sample.row_a; Sample.row_b] (Sample.start tt)
    = (st', loc, Ok tt)
    /\ successful_imports loc = 2%nat
    /\ trace st' = (tr ++ [LogNothingToSave; LogSummary 2 2 0])%list.
Proof.
  destruct (import_songs_all_accepted Sample.float_repr unit
              Sample.accept_all Sample.clock [Sample.row_a; Sample.row_b]
              (Sample.start tt) tt eq_refl eq_refl)
    as (st' & loc & tr & E & _ & Hs & _ & _ & _ & Ht).
  exists st', loc, tr. split; [exact E|]. split; [exact Hs|exact Ht].
Defined.

(** X14. The records of one run are written again by the next: when
    [import_songs] starts with failed records left from an earlier run
    it writes a CSV file that holds them, in front of its own, even if
    none of its rows fails. *)
Theorem import_songs_resaves_old_failures :
  forall (float_repr : pyfloat -> string) (W : Type)
         (sink_insert : W -> dict -> W * option string)
         (clock : nat -> datetime) (df : list dict) (st : state W),
    failed_records st <> [] ->
    let st' := fst (fst (import_songs float_repr sink_insert clock df st)) in
    exists path news,
      In (WriteCsv path (failed_records st ++ news)%list) (trace st')
      /\ failed_records st' = (failed_records st ++ news)%list.
Proof.
  intros float_repr W sink_insert clock df st Hne. cbv zeta.
  destruct (import_songs float_repr sink_insert clock df st)
    as [[st' loc] r] eqn:E.
  apply import_songs_effects in E as (news & F & _ & _ & _ & _ & _ & Hw).
  cbn [fst]. destruct Hw as [path Hin].
  - rewrite F. destruct (failed_records st); [now elim Hne|discriminate].
  - exists path, news. rewrite <- F. now split.
Qed.

Lemma import_songs_resaves_old_failures_witness :
  exists path news,
    In (WriteCsv path (Sample.row_a :: news))
      (trace (fst (fst (import_songs Sample.float_repr Sample.accept_all
                          Sample.clock [Sample.row_b] Demo.failing)))).
Proof.
  destruct (import_songs_resaves_old_failures Sample.float_repr unit
              Sample.accept_all Sample.clock [Sample.row_b] Demo.failing)
    as (path & news & Hin & _); [discriminate|].
  now exists path, news.
Defined.

(** X15. The data logged with a failed row are not always its own: when
    [prepare_song_data] raises on a row that follows one with a record,
    the row is recorded as failed and the loop goes on, but the record
    logged as its problematic data is the one of the row before. *)
Theorem bad_data_log_is_stale :
  forall (float_repr : pyfloat -> string) (W : Type)
         (sink_insert : W -> dict -> W * option string)
         (clock : nat -> datetime) (total index : nat) (r1 r2 : dict)
         (st : state W) (loc : locals) (l1 l2 : list event) (d1 : dict)
         (e : exn),
    prepare_song_data float_repr r1 = (l1, Ok d1) ->
    prepare_song_data float_repr r2 = (l2, Raise e) ->
    exists st1 loc1 st2 loc2,
      import_row float_repr sink_insert clock total index r1 st loc
      = (st1, loc1, Ok tt)
      /\ import_row float_repr sink_insert clock total (S index) r2 st1 loc1
         = (st2, loc2, Ok tt)
      /\ trace st2
         = (trace st1 ++ l2 ++ [LogRowError (S (S index)) (str_exn e);
                                LogBadData d1])%list
      /\ failed_records st2
         = (failed_records st1
            ++ [failed_record r2 e (clock (ticks st1))])%list.
Proof.
  intros float_repr W sink_insert clock total index r1 r2 st loc l1 l2 d1 e
    H1 H2.
  destruct (import_row float_repr sink_insert clock total index r1 st loc)
    as [[st1 loc1] r] eqn:E1.
  pose proof E1 as E.
  apply import_row_effects in E as (n & _ & _ & _ & _ & _ & E).
  destruct r as [[]|e1].
  - destruct E as (_ & Hd & _). rewrite H1 in Hd.
    exists st1, loc1. eexists; eexists. split; [reflexivity|].
    rewrite (import_row_prepare_raises_bound float_repr W sink_insert clock
               total (S index) r2 st1 loc1 l2 e d1 H2 Hd).
    repeat split.
  - destruct E as (_ & _ & Hp & _). unfold preparable in Hp.
    rewrite H1 in Hp. discriminate.
Qed.

Lemma bad_data_log_is_stale_witness :
  exists st1 loc1 st2 loc2,
    import_row Sample.float_repr Sample.accept_all Sample.clock 2 0
      Sample.row_a (Sample.start tt)
      {| successful_imports := 0; failed_imports := 0; song_data := None |}
    = (st1, loc1, Ok tt)
    /\ import_row Sample.float_repr Sample.accept_all Sample.clock 2 1
         Sample.row_inf st1 loc1
       = (st2, loc2, Ok tt)
    /\ trace st2
       = (trace st1
          ++ [LogRowError 2 "cannot convert float infinity to integer";
              LogBadData (payload Sample.float_repr Sample.row_a)])%list.
Proof.
  destruct (bad_data_log_is_stale Sample.float_repr unit Sample.accept_all
              Sample.clock 2 0 Sample.row_a Sample.row_inf (Sample.start tt)
              {| successful_imports := 0; failed_imports := 0;
                 song_data := None |}
              [] [] (payload Sample.float_repr Sample.row_a)
              (OverflowError "cannot convert float infinity to integer")
              eq_refl eq_refl)
    as (st1 & loc1 & st2 & loc2 & E1 & E2 & Ht & _).
  exists st1, loc1, st2, loc2. split; [exact E1|]. split; [exact E2|exact Ht].
Defined.

(** X16. A failed record is the row with two more keys: over a row with
    distinct columns, none of them named [error_message] or
    [error_time], it holds the row's cells in the row's order, then the
    text of the exception, then the time of capture.  A column of the
    row named [error_message] is overwritten. *)
Theorem failed_record_layout :
  forall (row : dict) (e : exn) (t : datetime),
    (NoDup (map fst row) ->
     ~ In "error_message" (map fst row) ->
     ~ In "error_time" (map fst row) ->
     failed_record row e t
     = (row ++ [("error_message", VStr (str_exn e));
                ("error_time", VStr (strftime_log t))])%list)
    /\ dict_get "error_message" (failed_record row e t)
       = Some (VStr (str_exn e)).
Proof.
  intros row e t. split.
  - intros Hnd Hm Ht. unfold failed_record.
    rewrite (to_dict_distinct row Hnd).
    rewrite (dict_set_fresh "error_message" _ row Hm).
    rewrite dict_set_fresh.
    + now rewrite <- app_assoc.
    + rewrite map_app. intros Hin. apply in_app_or in Hin as [Hin|Hin].
      * now apply Ht.
      * simpl in Hin. destruct Hin as [Hin|[]]. discriminate Hin.
  - unfold failed_record.
    rewrite dict_get_set_other by discriminate. apply dict_get_set_same.
Qed.

Lemma failed_record_layout_witness :
  failed_record Sample.row_b (SinkError "timeout") (Sample.clock 0)
  = (Sample.row_b ++ [("error_message", VStr "timeout");
                      ("error_time", VStr "2024-10-05 09:30:00")])%list.
Proof.
  apply (proj1 (failed_record_layout Sample.row_b (SinkError "timeout")
                  (Sample.clock 0))).
  - repeat (constructor; [simpl; intros H; repeat destruct H as [H|H];
                          discriminate H || exact H|]).
    constructor.
  - simpl. intros H. repeat destruct H as [H|H]; discriminate H || exact H.
  - simpl. intros H. repeat destruct H as [H|H]; discriminate H || exact H.
Defined.

(** ** The entry point *)

Lemma main_inserts_app (l1 l2 : list main_event) :
  main_inserts (l1 ++ l2) = (main_inserts l1 ++ main_inserts l2)%list.
Proof.
  induction l1 as [|e l1 IH]; simpl; [reflexivity|].
  destruct e as [p|[]| |m]; simpl; now rewrite ?IH.
Qed.

Lemma main_inserts_importer (tr : list event) :
  main_inserts (map FromImporter tr) = inserts tr.
Proof.
  induction tr as [|e tr IH]; simpl; [reflexivity|].
  destruct e; simpl; now rewrite IH.
Qed.

Lemma importer_events (tr : list event) :
  existsb is_main_error (map FromImporter tr) = false
  /\ existsb is_completed (map FromImporter tr) = false.
Proof. induction tr as [|e tr [IH1 IH2]]; simpl; now split. Qed.

(** X17. With a credential unset, or set to the empty string, [main]
    logs the error once and raises [ValueError]; it creates no client
    and reads no file, whatever those would have done. *)
Theorem main_needs_credentials :
  forall (float_repr : pyfloat -> string) (W : Type)
         (sink_insert : W -> dict -> W * option string)
         (clock : nat -> datetime) (getenv : string -> option string)
         (create_client : option string -> option string -> res W)
         (read_csv : string -> res (list dict)),
    truthy (getenv "SUPABASE_URL") && truthy (getenv "SUPABASE_KEY") = false ->
    main float_repr sink_insert clock getenv create_client read_csv
    = ([LogMainError credentials_msg], Raise (ValueError credentials_msg)).
Proof.
  intros float_repr W sink_insert clock getenv create_client read_csv H.
  unfold main, main_try. cbn [forallb]. rewrite andb_true_r, H.
  reflexivity.
Qed.

Lemma main_needs_credentials_witness :
  main Sample.float_repr (Sample.reject_nth 0 "") Sample.clock Demo.empty_key
    Demo.create_client Demo.read_csv
  = ([LogMainError credentials_msg], Raise (ValueError credentials_msg)).
Proof.
  apply (main_needs_credentials Sample.float_repr nat
           (Sample.reject_nth 0 "") Sample.clock Demo.empty_key
           Demo.create_client Demo.read_csv).
  reflexivity.
Defined.

(** X18. [main] raises again whatever was raised below it, after logging
    it once, as the last thing it logs; it logs the completion, last and
    once, exactly when it returns. *)
Theorem main_logs_what_it_raises :
  forall (float_repr : pyfloat -> string) (W : Type)
         (sink_insert : W -> dict -> W * option string)
         (clock : nat -> datetime) (getenv : string -> option string)
         (create_client : option string -> option string -> res W)
         (read_csv : string -> res (list dict)),
    let run :=
      main float_repr sink_insert clock getenv create_client read_csv in
    exists tr,
      existsb is_main_error tr = false
      /\ existsb is_completed tr = false
      /\ match snd run with
         | Raise e => fst run = (tr ++ [LogMainError (str_exn e)])%list
         | Ok _ => fst run = (tr ++ [LogCompleted])%list
         end.
Proof.
  intros float_repr W sink_insert clock getenv create_client read_csv.
  cbv zeta. unfold main, main_try.
  destruct (negb (forallb truthy _)); [now exists []|].
  unfold new_importer.
  destruct (create_client _ _) as [w|e]; cbn [res_bind]; [|now exists []].
  destruct (read_csv "songs2.csv") as [df|e];
    [|now exists [ReadCsv "songs2.csv"]].
  destruct (import_songs float_repr sink_insert clock df _)
    as [[st loc] [[]|e]];
    exists (ReadCsv "songs2.csv" :: map FromImporter (trace st));
    cbn [fst snd existsb is_main_error is_completed orb];
    destruct (importer_events (trace st)) as [H1 H2]; now repeat split.
Qed.

(** X19. [main] calls the sink only once both credentials are set, the
    client is created and the file is read; the calls are then those of
    [import_songs] on the data frame read, with a new importer. *)
Theorem main_sink_calls :
  forall (float_repr : pyfloat -> string) (W : Type)
         (sink_insert : W -> dict -> W * option string)
         (clock : nat -> datetime) (getenv : string -> option string)
         (create_client : option string -> option string -> res W)
         (read_csv : string -> res (list dict)),
    let run :=
      main float_repr sink_insert clock getenv create_client read_csv in
    main_inserts (fst run) <> [] ->
    truthy (getenv "SUPABASE_URL") = true
    /\ truthy (getenv "SUPABASE_KEY") = true
    /\ exists w df,
         create_client (getenv "SUPABASE_URL") (getenv "SUPABASE_KEY") = Ok w
         /\ read_csv "songs2.csv" = Ok df
         /\ main_inserts (fst run)
            = inserts
                (trace (fst (fst (import_songs float_repr sink_insert clock
                                    df
                                    {| sink := w; ticks := 0;
                                       failed_records := [];
                                       trace := [] |})))).
Proof.
  intros float_repr W sink_insert clock getenv create_client read_csv.
  cbv zeta. unfold main, main_try. cbn [forallb]. rewrite andb_true_r.
  destruct (truthy (getenv "SUPABASE_URL")); cbn [andb negb];
    [|intros H; now elim H].
  destruct (truthy (getenv "SUPABASE_KEY")); cbn [andb negb];
    [|intros H; now elim H].
  unfold new_importer.
  destruct (create_client _ _) as [w|e]; cbn [res_bind];
    [|intros H; now elim H].
  destruct (read_csv "songs2.csv") as [df|e]; [|intros H; now elim H].
  destruct (import_songs float_repr sink_insert clock df _)
    as [[st loc] [[]|e]] eqn:E; cbn [fst snd]; intros _;
    (split; [reflexivity|]); (split; [reflexivity|]); exists w, df;
    (split; [reflexivity|]); (split; [reflexivity|]);
    rewrite E, ?main_inserts_app; cbn [main_inserts];
    rewrite main_inserts_importer; cbn [main_inserts];
    now rewrite ?app_nil_r.
Qed.

Lemma main_sink_calls_witness :
  exists w df,
    Demo.create_client (Demo.getenv "SUPABASE_URL")
      (Demo.getenv "SUPABASE_KEY") = Ok w
    /\ Demo.read_csv "songs2.csv" = Ok df.
Proof.
  destruct (main_sink_calls Sample.float_repr nat
              (Sample.reject_nth 1 "timeout") Sample.clock Demo.getenv
              Demo.create_client Demo.read_csv)
    as (_ & _ & w & df & Hc & Hr & _); [vm_compute; discriminate|].
  now exists w, df.
Defined.

(** X20. With both credentials set, the client created, the file read
    and every row accepted by the sink, [main] returns: the sink has
    received the record of every row, in order, and the log ends with
    the note that there is nothing to save, the summary without a
    failure and the completion. *)
Theorem main_all_accepted :
  forall (float_repr : pyfloat -> string) (W : Type)
         (sink_insert : W -> dict -> W * option string)
         (clock : nat -> datetime) (getenv : string -> option string)
         (create_client : option string -> option string -> res W)
         (read_csv : string -> res (list dict))
         (w w' : W) (df : list dict),
    truthy (getenv "SUPABASE_URL") = true ->
    truthy (getenv "SUPABASE_KEY") = true ->
    create_client (getenv "SUPABASE_URL") (getenv "SUPABASE_KEY") = Ok w ->
    read_csv "songs2.csv" = Ok df ->
    sink_accepts float_repr sink_insert w df = Some w' ->
    exists tr,
      main float_repr sink_insert clock getenv create_client read_csv
      = ((tr ++ [FromImporter LogNothingToSave;
                 FromImporter
                   (LogSummary (List.length df) (List.length df) 0);
                 LogCompleted])%list,
         Ok tt)
      /\ main_inserts tr = map (payload float_repr) df.
Proof.
  intros float_repr W sink_insert clock getenv create_client read_csv
    w w' df Hu Hk Hc Hr Ha.
  unfold main, main_try. cbn [forallb]. rewrite Hu, Hk. cbn [andb negb].
  unfold new_importer. rewrite Hc. cbn [res_bind]. rewrite Hr.
  unfold import_songs.
  destruct (import_loop_accepts float_repr W sink_insert clock
              (List.length df) df 0
              {| sink := w; ticks := 0; failed_records := []; trace := [] |}
              {| successful_imports := 0; failed_imports := 0;
                 song_data := None |} w' Ha)
    as (st1 & loc1 & E & _ & _ & F1 & I1 & C1 & D1).
  rewrite E. unfold save_failed_records. rewrite F1.
  cbn [failed_records emit trace successful_imports failed_imports] in *.
  rewrite C1, D1.
  exists (ReadCsv "songs2.csv" :: map FromImporter (trace st1)). split.
  - rewrite <- app_assoc, map_app. cbn [map app].
    now rewrite <- app_assoc.
  - cbn [main_inserts]. now rewrite main_inserts_importer, I1.
Qed.

Lemma main_all_accepted_witness :
  exists tr,
    main Sample.float_repr (Sample.reject_nth 9 "timeout") Sample.clock
      Demo.getenv Demo.create_client Demo.read_csv
    = ((tr ++ [FromImporter LogNothingToSave;
               FromImporter (LogSummary 3 3 0); LogCompleted])%list, Ok tt)
    /\ main_inserts tr
       = map (payload Sample.float_repr)
           [Sample.row_b; Sample.row_c; Sample.row_b].
Proof.
  apply (main_all_accepted Sample.float_repr nat
           (Sample.reject_nth 9 "timeout") Sample.clock Demo.getenv
           Demo.create_client Demo.read_csv 0%nat 3%nat
           [Sample.row_b; Sample.row_c; Sample.row_b]); reflexivity.
Defined.

(** ** Column labels *)

Lemma py_lower_char_facts (c : ascii) :
  py_lower_char (py_lower_char c) = py_lower_char c
  /\ Str.is_space (py_lower_char c) = Str.is_space c.
Proof. destruct c as [[] [] [] [] [] [] [] []]; split; reflexivity. Qed.

Lemma py_lower_idem (s : string) : py_lower (py_lower s) = py_lower s.
Proof.
  induction s as [|c r IH]; simpl; [reflexivity|].
  now rewrite IH, (proj1 (py_lower_char_facts c)).
Qed.

Lemma py_lower_lstrip (s : string) :
  py_lower (Str.lstrip_by Str.is_space s)
  = Str.lstrip_by Str.is_space (py_lower s).
Proof.
  induction s as [|c r IH]; simpl; [reflexivity|].
  rewrite (proj2 (py_lower_char_facts c)).
  destruct (Str.is_space c); [exact IH|reflexivity].
Qed.

Lemma py_lower_rstrip (s : string) :
  py_lower (Str.rstrip_by Str.is_space s)
  = Str.rstrip_by Str.is_space (py_lower s).
Proof.
  induction s as [|c r IH]; simpl; [reflexivity|].
  rewrite (proj2 (py_lower_char_facts c)), <- IH.
  assert (He : Str.is_empty (py_lower (Str.rstrip_by Str.is_space r))
               = Str.is_empty (Str.rstrip_by Str.is_space r))
    by (now destruct (Str.rstrip_by Str.is_space r)).
  rewrite He.
  destruct (Str.is_space c && Str.is_empty (Str.rstrip_by Str.is_space r));
    reflexivity.
Qed.

(** X21. The label [read_csv] gives a column is a normal form: it has no
    capital letter and no white space at either end, and cleaning it
    again changes nothing; lowering and stripping may be done in either
    order. *)
Theorem normalize_column_normal_form :
  forall name : string,
    normalize_column (normalize_column name) = normalize_column name
    /\ py_lower (normalize_column name) = normalize_column name
    /\ Str.strip (normalize_column name) = normalize_column name
    /\ normalize_column name = py_lower (Str.strip name).
Proof.
  intros name.
  assert (Hc : py_lower (Str.strip name) = Str.strip (py_lower name)).
  { unfold Str.strip. now rewrite py_lower_rstrip, py_lower_lstrip. }
  assert (Hl : py_lower (normalize_column name) = normalize_column name).
  { unfold normalize_column. now rewrite <- Hc, py_lower_idem. }
  assert (Hs : Str.strip (normalize_column name) = normalize_column name)
    by apply strip_idem.
  repeat split; try assumption.
  - unfold normalize_column at 1. now rewrite Hl.
  - unfold normalize_column. now rewrite Hc.
Qed.
